(** * SimpleZoom: the zoom tool of [enthought.chaco2.tools.simple_zoom]

    A shallow embedding of the [SimpleZoom] tool: its zoom-limit policy,
    the drag gesture handlers, the apply step [_do_zoom] and the
    mouse-wheel path, with the properties the specification states
    about them.

    Python floats are IEEE 754 binary64 values; they are embedded as
    Rocq's primitive floats, whose operations are the same binary64
    operations (round to nearest even), so every float expression below
    evaluates to the very value the Python expression yields. *)

From Stdlib Require Import Floats ZArith List String Bool Lia.
Import ListNotations.

Set Warnings "-inexact-float".

(** ** Python values and exceptions *)

Inductive exn : Set :=
| IndexError
| TypeError
| ZeroDivisionError.

Inductive result (A : Type) : Type :=
| Ok (a : A)
| Raise (e : exn).

Arguments Ok {A} a.
Arguments Raise {A} e.

Module PyFloat.

Local Open Scope float_scope.

(** [inf] as imported from numpy: positive infinity. *)
Definition inf : float := infinity.

(** [a == b], [a > b] and [a < b] on floats: the IEEE comparisons
    (every comparison with a NaN is false). *)
Definition py_eq (a b : float) : bool := a =? b.
Definition py_gt (a b : float) : bool := b <? a.

(** [a > limit] where [limit] is a [Float(..., allow_none=True)] trait.
    The source is Python 2 ([state.has_key], implicit relative
    imports), where [None] orders below every number: [x > None] is
    [True] for every float [x], NaN included. *)
Definition py_gt_limit (a : float) (limit : option float) : bool :=
  match limit with
  | Some l => py_gt a l
  | None => true
  end.

(** [a / b]: a Python float raises [ZeroDivisionError] on a zero
    divisor of either sign (a numpy scalar would yield an infinity or a
    NaN instead; [_zoom_limit_reached] never divides by zero, see
    [_zoom_limit_reached_total]). *)
Definition py_div (a b : float) : result float :=
  if py_eq b 0 then Raise ZeroDivisionError else Ok (a / b).

(** [numpy.allclose(a, b)] on two scalars with the default tolerances
    [rtol=1e-5], [atol=1e-8], as numpy documents it:
    [absolute(a - b) <= atol + rtol * absolute(b)]. An infinity or a
    NaN is not close to any finite number. *)
Definition rtol : float := 1e-5.
Definition atol : float := 1e-8.
Definition allclose (a b : float) : bool :=
  abs (a - b) <=? atol + rtol * abs b.

(** [float(z)] for a pixel coordinate [z] (exact below [2^53]). *)
Definition of_Z (z : Z) : float :=
  match z with
  | Z0 => 0
  | Zpos _ => of_uint63 (Uint63Axioms.of_Z z)
  | Zneg p => - of_uint63 (Uint63Axioms.of_Z (Zpos p))
  end.

End PyFloat.

Import PyFloat.

(** ** Zoom-limit policy *)

Section ZoomLimit.

Local Open Scope float_scope.

(** The two traits [_zoom_limit_reached] reads from [self]. *)
Variable max_zoom_in_factor : option float.
Variable max_zoom_out_factor : option float.

Definition _zoom_limit_reached (orig_low orig_high new_low new_high : float)
  : result bool :=
  let orig_bounds := orig_high - orig_low in
  if py_eq orig_bounds inf then Ok false
  else
    let new_bounds := new_high - new_low in
    if allclose orig_bounds 0.0 then Ok true
    else if allclose new_bounds 0.0 then Ok true
    else
      match py_div new_bounds orig_bounds with
      | Raise e => Raise e
      | Ok zoom_out =>
        if py_gt_limit zoom_out max_zoom_out_factor then Ok true
        else
          match py_div orig_bounds new_bounds with
          | Raise e => Raise e
          | Ok zoom_in =>
            if py_gt_limit zoom_in max_zoom_in_factor then Ok true
            else Ok false
          end
      end.

End ZoomLimit.


(** ** Data model *)

(** [tool_mode = Enum("box", "range")], [axis = Enum("index", "value")],
    [drag_button = Enum("left", "right")],
    [event_state = Enum("normal", "selecting")]. *)
Inductive ToolMode : Set := ModeBox | ModeRange.
Inductive Axis : Set := AxisIndex | AxisValue.
Inductive Button : Set := ButtonLeft | ButtonRight.
Inductive EventState : Set := StateNormal | StateSelecting.

(** The host component's [orientation]: ["h"], or anything else (the
    source only tests for ["h"]). *)
Inductive Orientation : Set := OrientH | OrientV.

(** A range's [low_setting] / [high_setting]: a number or a symbolic
    value such as ["auto"]. *)
Inductive setting : Set :=
| SettingFloat (v : float)
| SettingStr (s : string).

(** [_orig_low_setting] / [_orig_high_setting]: [None] until
    [__init__] fills them, then one setting in range mode, the pair
    (x, y) in box mode. *)
Inductive orig_setting : Set :=
| OrigNone
| OrigScalar (s : setting)
| OrigTuple (sx sy : setting).

(** One entry of [_history]: [(low, high)] in range mode,
    [((xlow, ylow), (xhigh, yhigh))] in box mode. *)
Inductive ZoomState : Set :=
| RangeState (low high : float)
| BoxState (low high : float * float).

(** Tools are compared by identity ([active_tool == self]). *)
Definition ToolId : Set := nat.

(** The mouse event fields the tool reads: the pixel coordinates and
    the wheel delta, Python ints. [event.handled] is mutated by the
    handlers and lives in the world below. *)
Record Event : Set := mkEvent {
  x : Z;
  y : Z;
  mouse_wheel : Z
}.

(** The mapper of one axis together with its [range], as the tool uses
    it: [map_data], the four range attributes and their assignment, and
    [range.set_bounds]. The mapper classes are collaborators of the
    tool; whatever a setter does to the range is the instance's
    business. *)
Class MapperAPI (Mapper : Type) : Type := {
  map_data : Mapper -> Z -> float;
  range_low : Mapper -> float;
  range_high : Mapper -> float;
  range_low_setting : Mapper -> setting;
  range_high_setting : Mapper -> setting;
  set_range_low : float -> Mapper -> Mapper;
  set_range_high : float -> Mapper -> Mapper;
  set_range_low_setting : setting -> Mapper -> Mapper;
  set_range_high_setting : setting -> Mapper -> Mapper;
  range_set_bounds : float -> float -> Mapper -> Mapper
}.

(** The configuration traits of the tool; no handler assigns them. *)
Record Traits : Set := mkTraits {
  tool_mode : ToolMode;
  always_on : bool;
  axis : Axis;
  max_zoom_in_factor : option float;
  max_zoom_out_factor : option float;
  enable_wheel : bool;
  drag_button : Button;
  wheel_zoom_step : float;
  disable_on_complete : bool;
  minimum_screen_delta : Z;
  pointer : string
}.

(** The defaults of the class body. *)
Definition default_traits : Traits := {|
  tool_mode := ModeBox;
  always_on := false;
  axis := AxisIndex;
  max_zoom_in_factor := Some 1e5%float;
  max_zoom_out_factor := Some 1e5%float;
  enable_wheel := true;
  drag_button := ButtonLeft;
  wheel_zoom_step := 1.0%float;
  disable_on_complete := true;
  minimum_screen_delta := 10;
  pointer := "magnifier"
|}.

(** The tool object: traits, private traits and the history of the
    [ToolHistoryMixin]. *)
Record SimpleZoom : Set := mkSimpleZoom {
  traits : Traits;
  event_state : EventState;
  _enabled : bool;
  _orig_low_setting : orig_setting;
  _orig_high_setting : orig_setting;
  _screen_start : option (Z * Z);
  _screen_end : option (Z * Z);
  _history : list ZoomState;
  _history_index : nat
}.

Definition set_event_state (v : EventState) (t : SimpleZoom) : SimpleZoom :=
  mkSimpleZoom (traits t) v (_enabled t) (_orig_low_setting t)
    (_orig_high_setting t) (_screen_start t) (_screen_end t) (_history t)
    (_history_index t).

Definition set__enabled (v : bool) (t : SimpleZoom) : SimpleZoom :=
  mkSimpleZoom (traits t) (event_state t) v (_orig_low_setting t)
    (_orig_high_setting t) (_screen_start t) (_screen_end t) (_history t)
    (_history_index t).

Definition set__screen_start (v : option (Z * Z)) (t : SimpleZoom) : SimpleZoom :=
  mkSimpleZoom (traits t) (event_state t) (_enabled t) (_orig_low_setting t)
    (_orig_high_setting t) v (_screen_end t) (_history t) (_history_index t).

Definition set__screen_end (v : option (Z * Z)) (t : SimpleZoom) : SimpleZoom :=
  mkSimpleZoom (traits t) (event_state t) (_enabled t) (_orig_low_setting t)
    (_orig_high_setting t) (_screen_start t) v (_history t) (_history_index t).

Definition set__history (h : list ZoomState) (i : nat) (t : SimpleZoom)
  : SimpleZoom :=
  mkSimpleZoom (traits t) (event_state t) (_enabled t) (_orig_low_setting t)
    (_orig_high_setting t) (_screen_start t) (_screen_end t) h i.

Definition set__orig_settings (lo hi : orig_setting) (t : SimpleZoom)
  : SimpleZoom :=
  mkSimpleZoom (traits t) (event_state t) (_enabled t) lo hi
    (_screen_start t) (_screen_end t) (_history t) (_history_index t).

(** [event.window]: the pointer shown and the owner of the mouse. *)
Record Window : Set := mkWindow {
  window_pointer : string;
  mouse_owner : option ToolId
}.


(** ** The host component and the world of one tool *)

Section Tool.

Context {Mapper : Type} {mapper_api : MapperAPI Mapper}.

(** Modelled from the spec: the host surface, whose source is not part
    of the tool's file. It exposes an orientation, its screen position
    and size ([x], [y], [x2], [y2]), per-axis mappers, an "active tool"
    slot assignable to at most one tool, and a redraw request (counted
    here). Its [x_mapper] and [y_mapper] are the index and value
    mappers seen through the orientation. *)
Record Component : Type := mkComponent {
  orientation : Orientation;
  index_mapper : Mapper;
  value_mapper : Mapper;
  active_tool : option ToolId;
  c_x : Z;
  c_y : Z;
  c_x2 : Z;
  c_y2 : Z;
  redraw_requests : nat
}.

(** A mapper of the component, by the attribute that names it. *)
Inductive MapperRef : Set := IndexMapper | ValueMapper.

Definition get_mapper (r : MapperRef) (c : Component) : Mapper :=
  match r with
  | IndexMapper => index_mapper c
  | ValueMapper => value_mapper c
  end.

Definition update_mapper (r : MapperRef) (f : Mapper -> Mapper)
    (c : Component) : Component :=
  match r with
  | IndexMapper =>
      mkComponent (orientation c) (f (index_mapper c)) (value_mapper c)
        (active_tool c) (c_x c) (c_y c) (c_x2 c) (c_y2 c) (redraw_requests c)
  | ValueMapper =>
      mkComponent (orientation c) (index_mapper c) (f (value_mapper c))
        (active_tool c) (c_x c) (c_y c) (c_x2 c) (c_y2 c) (redraw_requests c)
  end.

Definition x_mapper_ref (c : Component) : MapperRef :=
  match orientation c with OrientH => IndexMapper | OrientV => ValueMapper end.

Definition y_mapper_ref (c : Component) : MapperRef :=
  match orientation c with OrientH => ValueMapper | OrientV => IndexMapper end.

Definition x_mapper (c : Component) : Mapper := get_mapper (x_mapper_ref c) c.
Definition y_mapper (c : Component) : Mapper := get_mapper (y_mapper_ref c) c.

Definition set_active_tool (v : option ToolId) (c : Component) : Component :=
  mkComponent (orientation c) (index_mapper c) (value_mapper c) v
    (c_x c) (c_y c) (c_x2 c) (c_y2 c) (redraw_requests c).

Definition add_redraw_request (c : Component) : Component :=
  mkComponent (orientation c) (index_mapper c) (value_mapper c)
    (active_tool c) (c_x c) (c_y c) (c_x2 c) (c_y2 c) (S (redraw_requests c)).

(** Everything a handler of the tool can read or write: the tool
    itself ([self], known to others as [self_id]), its component, the
    window of the event and the event's [handled] flag. *)
Record World : Type := mkWorld {
  self : SimpleZoom;
  self_id : ToolId;
  component : Component;
  window : Window;
  handled : bool
}.

Definition update_self (f : SimpleZoom -> SimpleZoom) (w : World) : World :=
  mkWorld (f (self w)) (self_id w) (component w) (window w) (handled w).

Definition update_component (f : Component -> Component) (w : World) : World :=
  mkWorld (self w) (self_id w) (f (component w)) (window w) (handled w).

Definition update_window (f : Window -> Window) (w : World) : World :=
  mkWorld (self w) (self_id w) (component w) (f (window w)) (handled w).

Definition set_handled (v : bool) (w : World) : World :=
  mkWorld (self w) (self_id w) (component w) (window w) v.

(** *** Methods as state transformers that may raise

    A method runs on a world and yields a value or an exception,
    together with the world as it left it (an exception keeps the
    assignments made before it). *)

Definition M (A : Type) : Type := World -> result A * World.

Definition ret {A : Type} (a : A) : M A := fun w => (Ok a, w).

Definition bind {A B : Type} (m : M A) (k : A -> M B) : M B :=
  fun w =>
    match m w with
    | (Ok a, w') => k a w'
    | (Raise e, w') => (Raise e, w')
    end.

Definition raise {A : Type} (e : exn) : M A := fun w => (Raise e, w).

Definition gets {A : Type} (f : World -> A) : M A := fun w => (Ok (f w), w).

Definition modify (f : World -> World) : M unit := fun w => (Ok tt, f w).

Definition lift {A : Type} (r : result A) : M A := fun w => (r, w).

Definition when (b : bool) (m : M unit) : M unit := if b then m else ret tt.

End Tool.

Arguments Component Mapper : clear implicits.
Arguments World Mapper : clear implicits.
Arguments M Mapper A : clear implicits.

Declare Scope py_scope.
Delimit Scope py_scope with py.

Notation "v <- m ;; k" := (bind m (fun v => k))
  (at level 100, m at next level, right associativity) : py_scope.
Notation "m ;; k" := (bind m (fun _ => k))
  (at level 100, right associativity) : py_scope.

(** ** The methods of the tool *)

Section Methods.

Context {Mapper : Type} {mapper_api : MapperAPI Mapper}.

Local Open Scope py_scope.

Local Abbreviation M := (M Mapper).

(** [slot == self], and [slot in (None, self)]. *)
Definition is_tool (slot : option ToolId) (me : ToolId) : bool :=
  match slot with
  | Some t => Nat.eqb t me
  | None => false
  end.

Definition none_or_tool (slot : option ToolId) (me : ToolId) : bool :=
  match slot with
  | Some t => Nat.eqb t me
  | None => true
  end.

(** [seq[ndx]] on a pair, for [ndx] 0 or 1. *)
Definition item {A : Type} (p : A * A) (ndx : nat) : A :=
  match ndx with
  | O => fst p
  | _ => snd p
  end.

(** *** Calls into the collaborators *)

Definition request_redraw : M unit :=
  modify (update_component add_redraw_request).

Definition set_pointer (p : string) : M unit :=
  modify (update_window (fun wi => mkWindow p (mouse_owner wi))).

Definition set_mouse_owner (o : option ToolId) : M unit :=
  modify (update_window (fun wi => mkWindow (window_pointer wi) o)).

Definition assign_range (r : MapperRef) (f : Mapper -> Mapper) : M unit :=
  modify (update_component (update_mapper r f)).

(** *** ToolHistoryMixin *)

(** Modelled from the spec: [tool_history_mixin.py] is not among the
    sources. [resetTo(state)] clears all entries, sets the single
    entry to [state] and the index to 0. *)
Definition _reset_state (state : ZoomState) : M unit :=
  modify (update_self (set__history [state] 0)).

(** Modelled from the spec: the history mixin's current entry, the
    ZoomState at the current index. *)
Definition _current_state : M ZoomState :=
  t <- gets self ;;
  match nth_error (_history t) (_history_index t) with
  | Some s => ret s
  | None => raise IndexError
  end.

(** Modelled from the spec: the history mixin's [push(state)]
    truncates any entries after the current index, appends [state]
    and advances the index to the new last position. ([_end_select]
    calls the apply step [_do_zoom] itself, right after.) *)
Definition _append_state (state : ZoomState) : M unit :=
  modify (update_self (fun t =>
    let new_history := firstn (S (_history_index t)) (_history t) ++ [state] in
    set__history new_history (List.length new_history - 1) t)).

(** Modelled from the spec: the history mixin's [pop()] removes the
    current (last) entry and decrements the index, without invoking
    apply. *)
Definition _pop_state : M unit :=
  modify (update_self (fun t =>
    set__history (removelast (_history t)) (Nat.pred (_history_index t)) t)).

(** [self._history[0]]. *)
Definition history_first : M ZoomState :=
  t <- gets self ;;
  match _history t with
  | s :: _ => ret s
  | [] => raise IndexError
  end.

(** *** Utility methods *)

(** [getattr(self.component, self.axis + "_mapper")], as the name of
    the attribute. *)
Definition _get_mapper (t : SimpleZoom) : MapperRef :=
  match axis (traits t) with
  | AxisIndex => IndexMapper
  | AxisValue => ValueMapper
  end.

Definition _determine_axis (t : SimpleZoom) (c : Component Mapper) : nat :=
  match axis (traits t) with
  | AxisIndex =>
      match orientation c with OrientH => 0 | OrientV => 1 end
  | AxisValue =>
      match orientation c with OrientH => 1 | OrientV => 0 end
  end.

(** One turn of the loop of [_map_coordinate_box]. *)
Definition map_axis (mapper : Mapper) (start_v end_v : Z) : float * float :=
  let low_val := map_data mapper start_v in
  let high_val := map_data mapper end_v in
  if py_gt low_val high_val then (high_val, low_val) else (low_val, high_val).

Definition _map_coordinate_box (c : Component Mapper) (start end_ : Z * Z)
  : (float * float) * (float * float) :=
  let xs := map_axis (x_mapper c) (item start 0) (item end_ 0) in
  let ys := map_axis (y_mapper c) (item start 1) (item end_ 1) in
  ((fst xs, fst ys), (snd xs, snd ys)).

(** The call [self._zoom_limit_reached(...)] from a method. *)
Definition limit_reached (orig_low orig_high new_low new_high : float)
  : M bool :=
  t <- gets self ;;
  lift (_zoom_limit_reached (max_zoom_in_factor (traits t))
          (max_zoom_out_factor (traits t)) orig_low orig_high new_low new_high).

(** *** Enabling and disabling *)

Definition reset : M unit :=
  modify (update_self (set_event_state StateNormal)) ;;
  modify (update_self (set__screen_start None)) ;;
  modify (update_self (set__screen_end None)).

Definition enable (event : option Event) : M unit :=
  slot <- gets (fun w => active_tool (component w)) ;;
  me <- gets self_id ;;
  when (negb (is_tool slot me))
    (modify (update_component (set_active_tool (Some me)))) ;;
  modify (update_self (set__enabled true)) ;;
  match event with
  | Some _ => p <- gets (fun w => pointer (traits (self w))) ;; set_pointer p
  | None => ret tt
  end.

Definition disable (event : option Event) : M unit :=
  reset ;;
  modify (update_self (set__enabled false)) ;;
  slot <- gets (fun w => active_tool (component w)) ;;
  me <- gets self_id ;;
  when (is_tool slot me) (modify (update_component (set_active_tool None))) ;;
  match event with
  | Some _ => set_pointer "arrow"
  | None => ret tt
  end.

Definition deactivate : M unit := disable None.

(** *** The history entry for the current bounds, and construction *)

Definition _reset_state_to_current : M unit :=
  t <- gets self ;;
  c <- gets component ;;
  match tool_mode (traits t) with
  | ModeRange =>
      let mapper := get_mapper (_get_mapper t) c in
      _reset_state (RangeState (range_low mapper) (range_high mapper))
  | ModeBox =>
      let x_range := x_mapper c in
      let y_range := y_mapper c in
      _reset_state (BoxState (range_low x_range, range_low y_range)
                             (range_high x_range, range_high y_range))
  end.

(** [SimpleZoom(component, **traits)]: the world right after
    [__init__]. The original settings are read off the ranges here
    and nowhere else. *)
Definition __init__ (component : Component Mapper) (kw : Traits)
    (me : ToolId) (win : Window) : World Mapper :=
  let blank :=
    mkSimpleZoom kw StateNormal false OrigNone OrigNone None None [] 0 in
  let w := snd (_reset_state_to_current (mkWorld blank me component win false)) in
  match tool_mode kw with
  | ModeRange =>
      let mapper := get_mapper (_get_mapper blank) component in
      update_self
        (set__orig_settings (OrigScalar (range_low_setting mapper))
                            (OrigScalar (range_high_setting mapper))) w
  | ModeBox =>
      let x_range := x_mapper component in
      let y_range := y_mapper component in
      update_self
        (set__orig_settings
           (OrigTuple (range_low_setting x_range) (range_low_setting y_range))
           (OrigTuple (range_high_setting x_range) (range_high_setting y_range))) w
  end.

(** *** Gesture handlers *)

Definition selecting_mouse_move (event : Event) : M unit :=
  modify (update_self (set__screen_end (Some (x event, y event)))) ;;
  request_redraw ;;
  modify (set_handled true).

Definition _start_select (event : Event) : M unit :=
  slot <- gets (fun w => active_tool (component w)) ;;
  me <- gets self_id ;;
  (if none_or_tool slot me
   then modify (update_component (set_active_tool (Some me)))
   else modify (update_self (set__enabled false))) ;;
  modify (update_self (set__screen_start (Some (x event, y event)))) ;;
  modify (update_self (set__screen_end None)) ;;
  modify (update_self (set_event_state StateSelecting)) ;;
  p <- gets (fun w => pointer (traits (self w))) ;;
  set_pointer p ;;
  set_mouse_owner (Some me) ;;
  selecting_mouse_move event.

Definition normal_left_down (event : Event) : M unit :=
  t <- gets self ;;
  if always_on (traits t) || _enabled t then
    match drag_button (traits t) with
    | ButtonLeft => _start_select event
    | ButtonRight => ret tt
    end
  else ret tt.

Definition normal_right_down (event : Event) : M unit :=
  t <- gets self ;;
  if always_on (traits t) || _enabled t then
    match drag_button (traits t) with
    | ButtonRight => _start_select event
    | ButtonLeft => ret tt
    end
  else ret tt.

Definition _end_selecting (event : option Event) : M unit :=
  t <- gets self ;;
  (if disable_on_complete (traits t) then disable event else reset) ;;
  request_redraw ;;
  match event with
  | Some _ =>
      owner <- gets (fun w => mouse_owner (window w)) ;;
      me <- gets self_id ;;
      when (is_tool owner me) (set_mouse_owner None)
  | None => ret tt
  end.

Definition selecting_mouse_leave (event : Event) : M unit :=
  _end_selecting (Some event).

(** *** The apply step

    A history entry or an original setting of the wrong shape for the
    tool mode (a pair where a number is used, or the reverse) raises
    [TypeError]; [__init__], [_reset_state_to_current] and [_end_select]
    only ever store the shape of the mode. *)

Definition _do_zoom : M unit :=
  cur <- _current_state ;;
  orig <- history_first ;;
  t <- gets self ;;
  if Nat.eqb (_history_index t) 0 then
    (match tool_mode (traits t) with
     | ModeRange =>
         let mapper := _get_mapper t in
         match _orig_low_setting t with
         | OrigScalar lo =>
             assign_range mapper (set_range_low_setting lo) ;;
             match _orig_high_setting t with
             | OrigScalar hi => assign_range mapper (set_range_high_setting hi)
             | _ => raise TypeError
             end
         | _ => raise TypeError
         end
     | ModeBox =>
         c <- gets component ;;
         let x_range := x_mapper_ref c in
         let y_range := y_mapper_ref c in
         match _orig_low_setting t with
         | OrigTuple xlo ylo =>
             assign_range x_range (set_range_low_setting xlo) ;;
             assign_range y_range (set_range_low_setting ylo) ;;
             match _orig_high_setting t with
             | OrigTuple xhi yhi =>
                 assign_range x_range (set_range_high_setting xhi) ;;
                 assign_range y_range (set_range_high_setting yhi)
             | _ => raise TypeError
             end
         | _ => raise TypeError
         end
     end) ;;
    request_redraw
  else
    match tool_mode (traits t) with
    | ModeRange =>
        match orig, cur with
        | RangeState orig_low orig_high, RangeState low high =>
            limited <- limit_reached orig_low orig_high low high ;;
            if limited then _pop_state
            else
              let mapper := _get_mapper t in
              assign_range mapper (set_range_low low) ;;
              assign_range mapper (set_range_high high) ;;
              request_redraw
        | _, _ => raise TypeError
        end
    | ModeBox =>
        match orig, cur with
        | BoxState orig_low orig_high, BoxState low high =>
            limited0 <- limit_reached (item orig_low 0) (item orig_high 0)
                                      (item low 0) (item high 0) ;;
            if limited0 then _pop_state
            else
              limited1 <- limit_reached (item orig_low 1) (item orig_high 1)
                                        (item low 1) (item high 1) ;;
              if limited1 then _pop_state
              else
                c <- gets component ;;
                let x_range := x_mapper_ref c in
                let y_range := y_mapper_ref c in
                assign_range x_range (set_range_low (item low 0)) ;;
                assign_range y_range (set_range_low (item low 1)) ;;
                assign_range x_range (set_range_high (item high 0)) ;;
                assign_range y_range (set_range_high (item high 1)) ;;
                request_redraw
        | _, _ => raise TypeError
        end
    end.

(** *** Ending a drag *)

(** Screen coordinates are Python ints, machine integers of 64 bits,
    and [array(point)] holds them as numpy's int64: arithmetic on the
    arrays and on their elements wraps around modulo 2^64. *)
Definition wrap64 (z : Z) : Z :=
  ((z + 9223372036854775808) mod 18446744073709551616 - 9223372036854775808)%Z.

(** [end - start] and [abs(...)], element by element; the absolute
    value of the least int64 is itself. *)
Definition int64_sub (a b : Z) : Z := wrap64 (a - b).
Definition int64_abs (a : Z) : Z := wrap64 (Z.abs a).
Definition int64_add (a b : Z) : Z := wrap64 (a + b).

(** [sum(abs(end - start))] on two screen points. *)
Definition screen_delta (start end_ : Z * Z) : Z :=
  int64_add (int64_abs (int64_sub (fst end_) (fst start)))
            (int64_abs (int64_sub (snd end_) (snd start))).

Definition _end_select (event : Event) : M unit :=
  modify (update_self (set__screen_end (Some (x event, y event)))) ;;
  t <- gets self ;;
  match _screen_start t with
  | None => raise TypeError
  | Some start =>
      let end_ := (x event, y event) in
      if (screen_delta start end_ <? minimum_screen_delta (traits t))%Z then
        _end_selecting (Some event) ;;
        modify (set_handled true)
      else
        c <- gets component ;;
        (match tool_mode (traits t) with
         | ModeRange =>
             let mapper := get_mapper (_get_mapper t) c in
             let axis := _determine_axis t c in
             let low := map_data mapper (item start axis) in
             let high := map_data mapper (item end_ axis) in
             let new_zoom_range :=
               if py_gt low high then RangeState high low else RangeState low high in
             _append_state new_zoom_range
         | ModeBox =>
             let lh := _map_coordinate_box c start end_ in
             _append_state (BoxState (fst lh) (snd lh))
         end) ;;
        _do_zoom ;;
        _end_selecting (Some event) ;;
        modify (set_handled true)
  end.

Definition selecting_left_up (event : Event) : M unit :=
  t <- gets self ;;
  match drag_button (traits t) with
  | ButtonLeft => _end_select event
  | ButtonRight => ret tt
  end.

Definition selecting_right_up (event : Event) : M unit :=
  t <- gets self ;;
  match drag_button (traits t) with
  | ButtonRight => _end_select event
  | ButtonLeft => ret tt
  end.

(** *** The mouse wheel *)

(** [zoom], from the sign of [event.mouse_wheel] (nonzero here). The
    zoom-in factor is a division of Python floats, which raises
    [ZeroDivisionError] when [1.0 + 0.5 * wheel_zoom_step] is zero. *)
Definition wheel_zoom (t : SimpleZoom) (event : Event) : result float :=
  if (0 <? mouse_wheel event)%Z
  then py_div 1.0 (1.0 + 0.5 * wheel_zoom_step (traits t))%float
  else Ok (1.0 + 0.5 * wheel_zoom_step (traits t))%float.

Definition wheel_newlow (zoom mouse_val low : float) : float :=
  (mouse_val - zoom * (mouse_val - low))%float.

Definition wheel_newhigh (zoom mouse_val high : float) : float :=
  (mouse_val + zoom * (high - mouse_val))%float.

(** [ol, oh] for axis [ndx]: indexed when the first history entry is a
    pair of pairs ([type(orig_high) in (tuple, list)]). *)
Definition wheel_orig (orig : ZoomState) (ndx : nat) : float * float :=
  match orig with
  | BoxState orig_low orig_high => (item orig_low ndx, item orig_high ndx)
  | RangeState orig_low orig_high => (orig_low, orig_high)
  end.

(** The [for ndx, datarange in datarange_list] loop and the two
    statements after it; a limited axis returns from the handler. *)
Fixpoint wheel_loop (zoom : float) (low_pt high_pt mouse_pos : float * float)
    (orig : ZoomState) (datarange_list : list (nat * MapperRef)) : M unit :=
  match datarange_list with
  | [] =>
      modify (set_handled true) ;;
      request_redraw
  | (ndx, datarange) :: rest =>
      let mouse_val := item mouse_pos ndx in
      let newlow := wheel_newlow zoom mouse_val (item low_pt ndx) in
      let newhigh := wheel_newhigh zoom mouse_val (item high_pt ndx) in
      let o := wheel_orig orig ndx in
      limited <- limit_reached (fst o) (snd o) newlow newhigh ;;
      if limited then modify (set_handled true)
      else
        assign_range datarange (range_set_bounds newlow newhigh) ;;
        wheel_loop zoom low_pt high_pt mouse_pos orig rest
  end.

Definition wheel_dataranges (t : SimpleZoom) (c : Component Mapper)
  : list (nat * MapperRef) :=
  match tool_mode (traits t) with
  | ModeRange => [(_determine_axis t c, _get_mapper t)]
  | ModeBox => [(0, x_mapper_ref c); (1, y_mapper_ref c)]
  end.

Definition normal_mouse_wheel (event : Event) : M unit :=
  t <- gets self ;;
  if enable_wheel (traits t) && negb (mouse_wheel event =? 0)%Z then
    zoom <- lift (wheel_zoom t event) ;;
    c <- gets component ;;
    let pts := _map_coordinate_box c (c_x c, c_y c) (c_x2 c, c_y2 c) in
    let mouse_pos :=
      (map_data (x_mapper c) (x event), map_data (y_mapper c) (y event)) in
    let datarange_list := wheel_dataranges t c in
    orig <- history_first ;;
    wheel_loop zoom (fst pts) (snd pts) mouse_pos orig datarange_list
  else ret tt.

(** *** Dispatch by button

    The handler that receives a press in the normal state, or a release
    in the selecting state, for each mouse button. *)

Definition normal_button_down (b : Button) : Event -> M unit :=
  match b with
  | ButtonLeft => normal_left_down
  | ButtonRight => normal_right_down
  end.

Definition selecting_button_up (b : Button) : Event -> M unit :=
  match b with
  | ButtonLeft => selecting_left_up
  | ButtonRight => selecting_right_up
  end.

(** *** Delivery of mouse events

    An event reaches the method named after the current [event_state]
    and the kind of the event, when the tool has such a method; it
    arrives with [handled] unset. *)

Inductive MouseEventKind : Set :=
| LeftDown
| RightDown
| LeftUp
| RightUp
| MouseMove
| MouseLeave
| MouseWheel.

Definition dispatch (kind : MouseEventKind) (event : Event) : M unit :=
  modify (set_handled false) ;;
  t <- gets self ;;
  match event_state t, kind with
  | StateNormal, LeftDown => normal_left_down event
  | StateNormal, RightDown => normal_right_down event
  | StateNormal, MouseWheel => normal_mouse_wheel event
  | StateSelecting, MouseMove => selecting_mouse_move event
  | StateSelecting, LeftUp => selecting_left_up event
  | StateSelecting, RightUp => selecting_right_up event
  | StateSelecting, MouseLeave => selecting_mouse_leave event
  | _, _ => ret tt
  end.

(** A sequence of events, delivered in order until one raises. *)
Fixpoint run_events (events : list (MouseEventKind * Event)) : M unit :=
  match events with
  | [] => ret tt
  | (kind, event) :: rest => dispatch kind event ;; run_events rest
  end.

(** *** What the zoom-limit policy says of the current history entry

    The verdict [_do_zoom] would obtain at a nonzero index: the entry at
    the index against the entry at 0, on the one axis in range mode and
    on either axis in box mode. *)

Definition is_limited (r : result bool) : bool :=
  match r with
  | Ok true => true
  | _ => false
  end.

Definition axis_limited (t : SimpleZoom) (orig_low orig_high low high : float)
  : bool :=
  is_limited (_zoom_limit_reached (max_zoom_in_factor (traits t))
                (max_zoom_out_factor (traits t)) orig_low orig_high low high).

Definition candidate_limited (t : SimpleZoom) : bool :=
  match _history t, nth_error (_history t) (_history_index t) with
  | orig :: _, Some cur =>
      match tool_mode (traits t), orig, cur with
      | ModeRange, RangeState orig_low orig_high, RangeState low high =>
          axis_limited t orig_low orig_high low high
      | ModeBox, BoxState orig_low orig_high, BoxState low high =>
          axis_limited t (item orig_low 0) (item orig_high 0)
                         (item low 0) (item high 0)
          || axis_limited t (item orig_low 1) (item orig_high 1)
                            (item low 1) (item high 1)
      | _, _, _ => false
      end
  | _, _ => false
  end.

(** *** Well-formed worlds

    What [__init__] establishes and every handler keeps: a non-empty
    history with the index inside it, and entries and original settings
    of the shape of the tool mode. *)

Definition state_shape (m : ToolMode) (s : ZoomState) : bool :=
  match m, s with
  | ModeRange, RangeState _ _ => true
  | ModeBox, BoxState _ _ => true
  | _, _ => false
  end.

Definition setting_shape (m : ToolMode) (o : orig_setting) : bool :=
  match m, o with
  | ModeRange, OrigScalar _ => true
  | ModeBox, OrigTuple _ _ => true
  | _, _ => false
  end.

Definition well_formed (w : World Mapper) : Prop :=
  let t := self w in
  _history_index t < List.length (_history t) /\
  Forall (fun s => state_shape (tool_mode (traits t)) s = true) (_history t) /\
  setting_shape (tool_mode (traits t)) (_orig_low_setting t) = true /\
  setting_shape (tool_mode (traits t)) (_orig_high_setting t) = true.

(** Two worlds whose tools agree on everything [well_formed] reads. *)
Definition same_history (w w' : World Mapper) : Prop :=
  traits (self w') = traits (self w) /\
  _history (self w') = _history (self w) /\
  _history_index (self w') = _history_index (self w) /\
  _orig_low_setting (self w') = _orig_low_setting (self w) /\
  _orig_high_setting (self w') = _orig_high_setting (self w).

(** What holds between two events: the world is well formed, and a
    tool in the selecting state has its start point. *)
Definition between_events (w : World Mapper) : Prop :=
  well_formed w /\
  (event_state (self w) = StateSelecting ->
   exists start, _screen_start (self w) = Some start).

(** How a mouse handler ends on such a world: it returns, or it raised
    the [ZeroDivisionError] of the zoom-in factor, which takes a tool
    whose [1.0 + 0.5 * wheel_zoom_step] is zero. *)
Definition returned_or_zero_division (t : SimpleZoom) (r : result unit) : Prop :=
  r = Ok tt \/
  (r = Raise ZeroDivisionError /\
   py_eq (1.0 + 0.5 * wheel_zoom_step (traits t))%float 0 = true).

End Methods.

(** ** A linear mapper, for running the tool on concrete plots

    A mapper over a screen interval [low_pos .. high_pos] whose range
    attributes are plain stored values. *)

Record LinearMapper : Set := mkLinearMapper {
  low : float;
  high : float;
  low_setting : setting;
  high_setting : setting;
  low_pos : Z;
  high_pos : Z
}.

Definition linear_map_data (m : LinearMapper) (screen_val : Z) : float :=
  let scale := (of_Z (high_pos m - low_pos m) / (high m - low m))%float in
  (of_Z (screen_val - low_pos m) / scale + low m)%float.

#[export] Instance linear_mapper_api : MapperAPI LinearMapper := {|
  map_data := linear_map_data;
  range_low := low;
  range_high := high;
  range_low_setting := low_setting;
  range_high_setting := high_setting;
  set_range_low := fun v m =>
    mkLinearMapper v (high m) (low_setting m) (high_setting m) (low_pos m) (high_pos m);
  set_range_high := fun v m =>
    mkLinearMapper (low m) v (low_setting m) (high_setting m) (low_pos m) (high_pos m);
  set_range_low_setting := fun s m =>
    mkLinearMapper (low m) (high m) s (high_setting m) (low_pos m) (high_pos m);
  set_range_high_setting := fun s m =>
    mkLinearMapper (low m) (high m) (low_setting m) s (low_pos m) (high_pos m);
  range_set_bounds := fun l h m =>
    mkLinearMapper l h (low_setting m) (high_setting m) (low_pos m) (high_pos m)
|}.

(** ** Concrete plots used in the examples *)

(** A mapper showing the data interval (0, 100) over the pixels 0..100,
    with automatic range settings. *)
Definition unit_mapper : LinearMapper :=
  mkLinearMapper 0 100 (SettingStr "auto") (SettingStr "auto") 0 100.

(** A horizontal plot of 100 by 100 pixels whose active-tool slot holds
    [slot]. *)
Definition example_component (slot : option ToolId) : Component LinearMapper :=
  mkComponent OrientH unit_mapper unit_mapper slot 0 0 100 100 0.

Definition example_window : Window := mkWindow "arrow" None.

(** The tool number 1, freshly constructed on the example plot. *)
Definition example_world (kw : Traits) (slot : option ToolId)
  : World LinearMapper :=
  __init__ (example_component slot) kw 1%nat example_window.

(** An always-on tool with the default left drag button. *)
Definition always_on_traits : Traits :=
  mkTraits ModeBox true AxisIndex (Some 1e5%float) (Some 1e5%float) true
    ButtonLeft 1.0%float true 10 "magnifier".

(** A range-mode tool on the index axis, otherwise with the defaults. *)
Definition range_traits : Traits :=
  mkTraits ModeRange false AxisIndex (Some 1e5%float) (Some 1e5%float) true
    ButtonLeft 1.0%float true 10 "magnifier".

(** A range-mode tool that may zoom in by a factor of 2 at most. *)
Definition tight_range_traits : Traits :=
  mkTraits ModeRange false AxisIndex (Some 2%float) (Some 1e5%float) true
    ButtonLeft 1.0%float true 10 "magnifier".

(** An always-on tool in the middle of a drag that started at (10, 20). *)
Definition dragging_world : World LinearMapper :=
  snd (normal_left_down (mkEvent 10 20 0) (example_world always_on_traits None)).

(** The tight range tool after a drag over the data interval (45, 55)
    was pushed on its history. *)
Definition pushed_world : World LinearMapper :=
  snd (_append_state (RangeState 45 55) (example_world tight_range_traits None)).

(** An always-on range tool on the index axis. *)
Definition always_on_range_traits : Traits :=
  mkTraits ModeRange true AxisIndex (Some 1e5%float) (Some 1e5%float) true
    ButtonLeft 1.0%float true 10 "magnifier".

(** A whole gesture: press, move and release of the left button. *)
Definition drag {Mapper : Type} {mapper_api : MapperAPI Mapper}
    (from to : Z * Z) (w : World Mapper) : World Mapper :=
  let w1 := snd (normal_left_down (mkEvent (fst from) (snd from) 0) w) in
  let w2 := snd (selecting_mouse_move (mkEvent (fst to) (snd to) 0) w1) in
  snd (selecting_left_up (mkEvent (fst to) (snd to) 0) w2).

(** An armed tool (default traits, left drag button) on a plot whose
    active-tool slot is held by tool number 2. *)
Definition contention_world : World LinearMapper :=
  update_self (set__enabled true) (example_world default_traits (Some 2%nat)).

(** ** Keys, history callbacks, drawing and persistence *)

(** A key event carries the fields of every event ([Event]) and the
    key pressed. [KeySpec] and its [match] belong to the Chaco API: the
    key type and the matching are parameters. The three [KeySpec]
    traits of the tool are kept in a record of their own. *)
Record KeyBindings (KeySpec : Type) : Type := mkKeyBindings {
  enter_zoom_key : KeySpec;
  exit_zoom_key : KeySpec;
  cancel_zoom_key : KeySpec
}.

Arguments mkKeyBindings {KeySpec} _ _ _.
Arguments enter_zoom_key {KeySpec} _.
Arguments exit_zoom_key {KeySpec} _.
Arguments cancel_zoom_key {KeySpec} _.

(** The value of the [color] trait: a colour name or an RGB(A) tuple;
    [color_] is the tuple it maps to. *)
Inductive ColorValue : Set :=
| ColorName (name : string)
| ColorTuple (rgba : list float).

(** The appearance traits read by the overlay methods. *)
Record Appearance : Set := mkAppearance {
  color : ColorValue;
  color_ : list float;
  alpha : option float;
  border_color_ : list float;
  border_size : Z
}.

(** The calls made on the graphics context, in order. *)
Inductive GcCall : Set :=
| save_state
| restore_state
| set_antialias (v : Z)
| set_line_width (v : Z)
| set_alpha (v : option float)
| set_stroke_color (c : list float)
| set_fill_color (c : list float)
| clip_to_rect (cx cy cw ch : Z)
| rect (rx ry rw rh : Z)
| draw_path
| stroke_path.

Section MoreMethods.

Context {Mapper : Type} {mapper_api : MapperAPI Mapper}.
Context {Key KeySpec : Type}.

Local Open Scope py_scope.

Local Abbreviation M := (M Mapper).

(** [spec.match(event)]. *)
Variable key_match : KeySpec -> Key -> bool.

(** [self._history_handle_key(event)] of the history mixin, whose
    source is not at hand: any method. *)
Variable _history_handle_key : Event -> Key -> M unit.

Variable keys : KeyBindings KeySpec.

(** *** Key handlers *)

Definition selecting_key_pressed (event : Event) (key : Key) : M unit :=
  if key_match (cancel_zoom_key keys) key then
    _end_selecting (Some event) ;;
    modify (set_handled true)
  else ret tt.

Definition normal_key_pressed (event : Event) (key : Key) : M unit :=
  t <- gets self ;;
  let history_keys :=
    _history_handle_key event key ;;
    h <- gets handled ;;
    when h request_redraw in
  if negb (always_on (traits t)) then
    if negb (_enabled t) && key_match (enter_zoom_key keys) key then
      slot <- gets (fun w => active_tool (component w)) ;;
      me <- gets self_id ;;
      if none_or_tool slot me then
        modify (update_component (set_active_tool (Some me))) ;;
        modify (update_self (set__enabled true)) ;;
        set_pointer (pointer (traits t))
      else modify (update_self (set__enabled false))
    else if _enabled t && key_match (exit_zoom_key keys) key then
      modify (update_self (set__enabled false)) ;;
      set_pointer "arrow"
    else history_keys
  else history_keys.

(** *** Callbacks of the history mixin *)

Definition _reset_state_pressed : M unit :=
  _do_zoom ;;
  _reset_state_to_current.

Definition _prev_state_pressed : M unit := _do_zoom.

Definition _next_state_pressed : M unit := _do_zoom.

(** [_component_changed]: the mapper of the component is never [None]
    here. *)
Definition _component_changed : M unit := _reset_state_to_current.

Definition _activate : M unit := enable None.

(** *** Coordinates *)

(** The parameter [axis] is ["index"] or anything else. *)
Definition _get_axis_coord (t : SimpleZoom) (c : Component Mapper)
    (event : Event) (axis : Axis) : Z :=
  let event_pos := (x event, y event) in
  match axis with
  | AxisIndex => item event_pos (_determine_axis t c)
  | AxisValue => item event_pos (1 - _determine_axis t c)
  end.

(** *** Drawing

    [component.bounds], the (width, height) of the component, is passed
    in; [component.position] is [(x, y)]. The methods yield the calls
    they make on [gc], or raise before making any. *)

(** [seq[ndx] = v] on a two-element list. *)
Definition set_item {A : Type} (p : A * A) (ndx : nat) (v : A) : A * A :=
  match ndx with
  | O => (v, snd p)
  | _ => (fst p, v)
  end.

(** [if self.alpha:] — [None] and [0.0] are false. *)
Definition alpha_set (a : option float) : option float :=
  match a with
  | Some v => if py_eq v 0 then None else Some v
  | None => None
  end.

(** The fill colour of the selection box. *)
Definition fill_color (a : Appearance) : list float :=
  match alpha_set (alpha a) with
  | Some v =>
      let color := color_ a in
      if Nat.eqb (List.length color) 4
      then firstn 3 color ++ [v] ++ skipn 4 color
      else color ++ [v]
  | None => color_ a
  end.

Definition is_transparent (c : ColorValue) : bool :=
  match c with
  | ColorName name => String.eqb name "transparent"
  | ColorTuple _ => false
  end.

Definition overlay_box (a : Appearance) (bounds : Z * Z) (w : World Mapper)
  : result (list GcCall) :=
  match _screen_start (self w), _screen_end (self w) with
  | Some start, Some end_ =>
      let c := component w in
      let r := rect (fst start) (snd start)
                 (fst end_ - fst start + 1) (snd end_ - snd start + 1) in
      Ok ([save_state;
           set_antialias 0;
           set_line_width (border_size a);
           set_stroke_color (border_color_ a);
           clip_to_rect (c_x c) (c_y c) (fst bounds) (snd bounds)]
          ++ (if is_transparent (color a)
              then [r; stroke_path]
              else [set_fill_color (fill_color a); r; draw_path])
          ++ [restore_state])
  | _, _ => Ok []
  end.

Definition overlay_range (a : Appearance) (bounds : Z * Z) (w : World Mapper)
  : result (list GcCall) :=
  let c := component w in
  let axis_ndx := _determine_axis (self w) c in
  match _screen_start (self w) with
  | None => Raise TypeError
  | Some start =>
      let lower_left := set_item (0, 0)%Z axis_ndx (item start axis_ndx) in
      let lower_left :=
        set_item lower_left (1 - axis_ndx) (item (c_x c, c_y c) (1 - axis_ndx)) in
      match _screen_end (self w) with
      | None => Raise TypeError
      | Some end_ =>
          let upper_right :=
            set_item (0, 0)%Z axis_ndx
              (item end_ axis_ndx - item start axis_ndx)%Z in
          let upper_right :=
            set_item upper_right (1 - axis_ndx) (item bounds (1 - axis_ndx)) in
          Ok [save_state;
              set_antialias 0;
              set_alpha (alpha a);
              set_fill_color (color_ a);
              set_stroke_color (border_color_ a);
              clip_to_rect (c_x c) (c_y c) (fst bounds) (snd bounds);
              rect (fst lower_left) (snd lower_left)
                   (fst upper_right) (snd upper_right);
              draw_path;
              restore_state]
      end
  end.

Definition overlay (a : Appearance) (bounds : Z * Z) (w : World Mapper)
  : result (list GcCall) :=
  match event_state (self w) with
  | StateSelecting =>
      match tool_mode (traits (self w)) with
      | ModeRange => overlay_range a bounds w
      | ModeBox => overlay_box a bounds w
      end
  | StateNormal => Ok []
  end.

(** What holds of a tool in the selecting state between two events:
    both screen points are there. *)
Definition selection_drawable (w : World Mapper) : Prop :=
  event_state (self w) = StateSelecting ->
  (exists start, _screen_start (self w) = Some start) /\
  (exists end_, _screen_end (self w) = Some end_).

End MoreMethods.

(** *** The candidate of a drag and its application, spelled out *)

Section ApplySpec.

Context {Mapper : Type} {mapper_api : MapperAPI Mapper}.

(** The verdict of the zoom-limit policy on an entry [cur] against the
    entry [orig], as [_do_zoom] obtains it: one axis in range mode,
    either axis in box mode. *)
Definition state_limited (t : SimpleZoom) (orig cur : ZoomState) : bool :=
  match orig, cur with
  | RangeState orig_low orig_high, RangeState low high =>
      axis_limited t orig_low orig_high low high
  | BoxState orig_low orig_high, BoxState low high =>
      axis_limited t (item orig_low 0) (item orig_high 0) (item low 0) (item high 0)
      || axis_limited t (item orig_low 1) (item orig_high 1)
                        (item low 1) (item high 1)
  | _, _ => false
  end.

(** The entry [_end_select] pushes for a drag from [start] to [end_]. *)
Definition drag_candidate (t : SimpleZoom) (c : Component Mapper)
    (start end_ : Z * Z) : ZoomState :=
  match tool_mode (traits t) with
  | ModeRange =>
      let mapper := get_mapper (_get_mapper t) c in
      let axis := _determine_axis t c in
      let low := map_data mapper (item start axis) in
      let high := map_data mapper (item end_ axis) in
      if py_gt low high then RangeState high low else RangeState low high
  | ModeBox =>
      BoxState (fst (_map_coordinate_box c start end_))
               (snd (_map_coordinate_box c start end_))
  end.

(** The assignments [_do_zoom] makes for an accepted entry, in order:
    [low] then [high] of the tool's mapper range in range mode; the low
    of the x range, the low of the y range, then the two highs in box
    mode. *)
Definition apply_bounds (t : SimpleZoom) (cur : ZoomState)
    (c : Component Mapper) : Component Mapper :=
  match cur with
  | RangeState low high =>
      update_mapper (_get_mapper t) (set_range_high high)
        (update_mapper (_get_mapper t) (set_range_low low) c)
  | BoxState low high =>
      update_mapper (y_mapper_ref c) (set_range_high (snd high))
        (update_mapper (x_mapper_ref c) (set_range_high (fst high))
           (update_mapper (y_mapper_ref c) (set_range_low (snd low))
              (update_mapper (x_mapper_ref c) (set_range_low (fst low)) c)))
  end.

End ApplySpec.

(** A range tool that may not zoom out past its original extent. *)
Definition no_zoom_out_traits : Traits :=
  mkTraits ModeRange false AxisIndex (Some 1e5%float) (Some 1%float) true
    ButtonLeft 1.0%float true 10 "magnifier".

(** An always-on box tool that stays enabled after a zoom. *)
Definition sticky_traits : Traits :=
  mkTraits ModeBox true AxisIndex (Some 1e5%float) (Some 1e5%float) true
    ButtonLeft 1.0%float false 10 "magnifier".

(** The range tool of the examples after two accepted drags: over the
    data intervals (20, 60) and then (32, 40). *)
Definition zoomed_twice_world : World LinearMapper :=
  drag (30, 0)%Z (50, 0)%Z
    (drag (20, 0)%Z (60, 0)%Z (example_world always_on_range_traits None)).

(** An always-on range tool in the middle of a drag that started at
    x = 20. *)
Definition range_dragging_world : World LinearMapper :=
  snd (normal_left_down (mkEvent 20 0 0)
         (example_world always_on_range_traits None)).

(** Keys as strings, matched by equality; [z] enters and exits zoom
    mode and [Esc] cancels, as in the class body. *)
Definition default_keys : KeyBindings string :=
  mkKeyBindings "z"%string "z"%string "Esc"%string.

(** The same tool after a step back in its history, before the entry
    is applied. *)
Definition stepped_back_world : World LinearMapper :=
  update_self (fun t => set__history (_history t) 1 t) zoomed_twice_world.

(** The mapper of a component that a reference does not name. *)
Definition other_mapper (r : MapperRef) : MapperRef :=
  match r with
  | IndexMapper => ValueMapper
  | ValueMapper => IndexMapper
  end.

(** An index mapper whose range was given the fixed bounds (20, 60):
    its settings are these numbers. *)
Definition frozen_mapper : LinearMapper :=
  mkLinearMapper 20 60 (SettingFloat 20) (SettingFloat 60) 0 100.

(** The range tool of the examples, constructed on the example plot
    with its automatic settings, on a plot whose index range was fixed
    since. *)
Definition frozen_world : World LinearMapper :=
  mkWorld (self (example_world range_traits None)) 1%nat
    (mkComponent OrientH frozen_mapper unit_mapper None 0 0 100 100 0)
    example_window false.

(** A range tool whose wheel step makes [1.0 + 0.5 * wheel_zoom_step]
    zero. *)
Definition zero_factor_traits : Traits :=
  mkTraits ModeRange false AxisIndex (Some 1e5%float) (Some 1e5%float) true
    ButtonLeft (-2.0)%float true 10 "magnifier".

(** *** Persistence *)

Section Persistence.

(** The state dictionary of the parent classes, as the list of its
    items; a key has at most one item. *)
Variable Value : Type.

Definition has_key (state : list (string * Value)) (key : string) : bool :=
  existsb (fun kv => String.eqb (fst kv) key) state.

(** [del state[key]]. *)
Definition del_key (state : list (string * Value)) (key : string)
  : list (string * Value) :=
  filter (fun kv => negb (String.eqb (fst kv) key)) state.

(** [state.get(key)]. *)
Fixpoint get_key (state : list (string * Value)) (key : string) : option Value :=
  match state with
  | [] => None
  | (k, v) :: rest => if String.eqb k key then Some v else get_key rest key
  end.

Definition dont_pickle : list string :=
  ["always_on"; "enter_zoom_key"; "exit_zoom_key"; "minimum_screen_delta";
   "event_state"; "reset_zoom_key"; "prev_zoom_key"; "next_zoom_key";
   "pointer"; "_enabled"; "_screen_start"; "_screen_end"]%string.

(** [__getstate__], from the state of [super]. *)
Definition __getstate__ (super_state : list (string * Value))
  : list (string * Value) :=
  fold_left
    (fun state key => if has_key state key then del_key state key else state)
    dont_pickle super_state.

End Persistence.

Arguments has_key {Value} state key.
Arguments del_key {Value} state key.
Arguments get_key {Value} state key.
Arguments __getstate__ {Value} super_state.

(** * Properties *)

(** ** The float guards of the zoom-limit policy *)

Section FloatGuards.

Local Open Scope float_scope.

Lemma py_eq_zero_inv (v : float) :
  py_eq v 0 = true -> v = 0 \/ v = -0.
Proof.
  unfold py_eq. rewrite FloatAxioms.eqb_spec. intros H.
  destruct (Prim2SF v) as [s | s | | s m e] eqn:E; cbn in H;
    try discriminate; try (destruct s; discriminate).
  apply (f_equal SF2Prim) in E. rewrite SF2Prim_Prim2SF in E.
  destruct s; [right | left]; subst v; reflexivity.
Qed.

Lemma py_eq_inf_inv (v : float) :
  py_eq v inf = true -> v = inf.
Proof.
  unfold py_eq, inf. rewrite FloatAxioms.eqb_spec. intros H.
  destruct (Prim2SF v) as [s | s | | s m e] eqn:E; cbn in H;
    try discriminate; try (destruct s; discriminate).
  apply (f_equal SF2Prim) in E. rewrite SF2Prim_Prim2SF in E.
  destruct s; [discriminate | subst v; reflexivity].
Qed.

(** A zero of either sign is within tolerance of zero. *)
Lemma allclose_zero_of_py_eq_zero (v : float) :
  py_eq v 0 = true -> allclose v 0 = true.
Proof.
  intros H. destruct (py_eq_zero_inv v H); subst v; reflexivity.
Qed.

(** Hence a divisor that passed the [allclose] guard never raises. *)
Lemma py_div_ok (a b : float) :
  allclose b 0 = false -> py_div a b = Ok (a / b).
Proof.
  intros H. unfold py_div.
  destruct (py_eq b 0) eqn:E; [| reflexivity].
  apply allclose_zero_of_py_eq_zero in E. congruence.
Qed.

Lemma allclose_zero_not_inf (v : float) :
  allclose v 0 = true -> py_eq v inf = false.
Proof.
  intros H. destruct (py_eq v inf) eqn:E; [| reflexivity].
  apply py_eq_inf_inv in E. subst v. vm_compute in H. discriminate.
Qed.

(** A finite value is not the [inf] of the first guard. *)
Lemma is_finite_not_inf (v : float) :
  is_finite v = true -> py_eq v inf = false.
Proof.
  intros H. destruct (py_eq v inf) eqn:E; [| reflexivity].
  apply py_eq_inf_inv in E. subst v. vm_compute in H. discriminate.
Qed.

(** [_zoom_limit_reached] never raises: it is a total predicate. *)
Lemma _zoom_limit_reached_total (max_in max_out : option float)
    (ol oh nl nh : float) :
  exists b, _zoom_limit_reached max_in max_out ol oh nl nh = Ok b.
Proof.
  unfold _zoom_limit_reached.
  destruct (py_eq (oh - ol) inf); [eauto |].
  destruct (allclose (oh - ol) 0) eqn:Eo; [eauto |].
  destruct (allclose (nh - nl) 0) eqn:En; [eauto |].
  rewrite (py_div_ok _ _ Eo), (py_div_ok _ _ En).
  destruct (py_gt_limit _ max_out); [eauto |].
  destruct (py_gt_limit _ max_in); eauto.
Qed.

(** Past the three guards the answer is the disjunction of the two
    factor comparisons. *)
Lemma _zoom_limit_reached_ratio (max_in max_out : option float)
    (ol oh nl nh : float) :
  py_eq (oh - ol) inf = false ->
  allclose (oh - ol) 0 = false ->
  allclose (nh - nl) 0 = false ->
  _zoom_limit_reached max_in max_out ol oh nl nh =
    Ok (py_gt_limit ((nh - nl) / (oh - ol)) max_out
        || py_gt_limit ((oh - ol) / (nh - nl)) max_in).
Proof.
  intros Hinf Ho Hn. unfold _zoom_limit_reached.
  rewrite Hinf, Ho, Hn, (py_div_ok _ _ Ho), (py_div_ok _ _ Hn).
  destruct (py_gt_limit _ max_out); [reflexivity |].
  destruct (py_gt_limit _ max_in); reflexivity.
Qed.

(** ** The zoom-limit policy *)

(** C3, as stated, fails: a finite nonzero original extent of 100 with
    a new extent of 1e-9 is reported limited although neither factor
    exceeds its maximum (1e-11 against 1e5, 1e11 against 1e12); and
    with the default maxima an original and new extent of 1e-9 each
    (finite, nonzero, factors both 1) is reported limited as well. *)
Lemma zoom_limit_iff_ratio_counterexample :
  (is_finite (100 - 0) = true /\ py_eq (100 - 0) 0 = false /\
   _zoom_limit_reached (Some 1e12) (Some 1e5) 0 100 0 1e-9 = Ok true /\
   py_gt ((1e-9 - 0) / (100 - 0)) 1e5 = false /\
   py_gt ((100 - 0) / (1e-9 - 0)) 1e12 = false) /\
  (is_finite (1e-9 - 0) = true /\ py_eq (1e-9 - 0) 0 = false /\
   _zoom_limit_reached (Some 1e5) (Some 1e5) 0 1e-9 0 1e-9 = Ok true /\
   py_gt ((1e-9 - 0) / (1e-9 - 0)) 1e5 = false).
Proof. vm_compute. repeat split. Qed.

(** C3 (amended): when the original extent is finite and neither the
    original nor the new extent is within the [allclose] tolerance of
    zero, [_zoom_limit_reached] returns, and returns true if and only if
    the zoom-out factor new/orig exceeds [max_zoom_out_factor] or the
    zoom-in factor orig/new exceeds [max_zoom_in_factor]. *)
Theorem zoom_limit_iff_ratio (max_in max_out : option float)
    (ol oh nl nh : float) :
  is_finite (oh - ol) = true ->
  allclose (oh - ol) 0 = false ->
  allclose (nh - nl) 0 = false ->
  exists b,
    _zoom_limit_reached max_in max_out ol oh nl nh = Ok b /\
    (b = true <->
       py_gt_limit ((nh - nl) / (oh - ol)) max_out = true \/
       py_gt_limit ((oh - ol) / (nh - nl)) max_in = true).
Proof.
  intros Hfin Ho Hn.
  rewrite (_zoom_limit_reached_ratio _ _ _ _ _ _ (is_finite_not_inf _ Hfin) Ho Hn).
  eexists. split; [reflexivity |]. apply orb_true_iff.
Qed.

Lemma zoom_limit_iff_ratio_witness :
  exists b,
    _zoom_limit_reached (Some 2) (Some 1e5) 0 100 45 55 = Ok b /\
    (b = true <->
       py_gt_limit ((55 - 45) / (100 - 0)) (Some 1e5) = true \/
       py_gt_limit ((100 - 0) / (55 - 45)) (Some 2) = true).
Proof.
  apply (zoom_limit_iff_ratio (Some 2) (Some 1e5) 0 100 45 55); reflexivity.
Defined.

(** C4, as stated, fails: with an original extent of +inf the first
    test answers before the tolerance tests, so a new extent of exactly
    zero is not reported limited. *)
Lemma zoom_limit_near_zero_counterexample :
  allclose (5 - 5) 0 = true /\
  _zoom_limit_reached (Some 1e5) (Some 1e5) 0 inf 5 5 = Ok false.
Proof. vm_compute. split; reflexivity. Qed.

(** C4 (amended): [_zoom_limit_reached] returns true whenever the
    original extent is within tolerance of zero, and whenever the new
    extent is within tolerance of zero and the original extent is not
    +inf. *)
Theorem zoom_limit_near_zero (max_in max_out : option float)
    (ol oh nl nh : float) :
  allclose (oh - ol) 0 = true \/
  (allclose (nh - nl) 0 = true /\ py_eq (oh - ol) inf = false) ->
  _zoom_limit_reached max_in max_out ol oh nl nh = Ok true.
Proof.
  intros [Ho | [Hn Hinf]]; unfold _zoom_limit_reached.
  - rewrite (allclose_zero_not_inf _ Ho), Ho. reflexivity.
  - rewrite Hinf, Hn. destruct (allclose (oh - ol) 0); reflexivity.
Qed.

Lemma zoom_limit_near_zero_witness :
  _zoom_limit_reached (Some 1e5) (Some 1e5) 0 100 5 5 = Ok true.
Proof.
  apply (zoom_limit_near_zero (Some 1e5) (Some 1e5) 0 100 5 5).
  right. split; reflexivity.
Defined.

(** C5, as stated, fails: the test is [orig_bounds == inf], which an
    original extent of -inf does not pass; with a new extent of zero
    the policy then reports limited. *)
Lemma zoom_limit_infinite_counterexample :
  is_infinity (neg_infinity - 0) = true /\
  is_finite (5 - 5) = true /\
  _zoom_limit_reached (Some 1e5) (Some 1e5) 0 neg_infinity 5 5 = Ok true.
Proof. vm_compute. repeat split. Qed.

(** C5 (amended): whenever the original extent is +inf,
    [_zoom_limit_reached] returns false, for every new extent and
    whatever the maximum factors are. *)
Theorem zoom_limit_infinite (max_in max_out : option float)
    (ol oh nl nh : float) :
  py_eq (oh - ol) inf = true ->
  _zoom_limit_reached max_in max_out ol oh nl nh = Ok false.
Proof.
  intros H. unfold _zoom_limit_reached. rewrite H. reflexivity.
Qed.

Lemma zoom_limit_infinite_witness :
  _zoom_limit_reached (Some 1e5) (Some 1e5) neg_infinity inf 45 55 = Ok false.
Proof.
  apply (zoom_limit_infinite (Some 1e5) (Some 1e5) neg_infinity inf 45 55).
  reflexivity.
Defined.

(** C10: when [max_zoom_in_factor] or [max_zoom_out_factor] is [None],
    [_zoom_limit_reached] returns true for every finite original extent
    and every new extent (finite or not), neither within tolerance of
    zero: a [None] limit rejects every zoom. *)
Theorem zoom_limit_none_rejects (max_in max_out : option float)
    (ol oh nl nh : float) :
  max_in = None \/ max_out = None ->
  is_finite (oh - ol) = true ->
  allclose (oh - ol) 0 = false ->
  allclose (nh - nl) 0 = false ->
  _zoom_limit_reached max_in max_out ol oh nl nh = Ok true.
Proof.
  intros Hnone Hfin Ho Hn.
  rewrite (_zoom_limit_reached_ratio _ _ _ _ _ _ (is_finite_not_inf _ Hfin) Ho Hn).
  f_equal.
  destruct Hnone as [-> | ->]; cbn; [apply orb_true_r | reflexivity].
Qed.

Lemma zoom_limit_none_rejects_witness :
  _zoom_limit_reached None (Some 1e5) 0 100 20 60 = Ok true.
Proof.
  apply (zoom_limit_none_rejects None (Some 1e5) 0 100 20 60);
    [left; reflexivity | reflexivity | reflexivity | reflexivity].
Defined.

End FloatGuards.

(** ** Screen distances in int64 *)

Section ScreenDelta.

Local Open Scope Z_scope.

Lemma wrap64_range (z : Z) :
  -9223372036854775808 <= wrap64 z < 9223372036854775808.
Proof. unfold wrap64. Z.div_mod_to_equations. lia. Qed.

Lemma wrap64_small (z : Z) :
  -9223372036854775808 <= z < 9223372036854775808 -> wrap64 z = z.
Proof. unfold wrap64. intros H. Z.div_mod_to_equations. lia. Qed.

Lemma int64_abs_le (d : Z) : int64_abs (wrap64 d) <= Z.abs d.
Proof. unfold int64_abs, wrap64. Z.div_mod_to_equations. lia. Qed.

Lemma int64_abs_cases (d : Z) :
  int64_abs (wrap64 d) = -9223372036854775808 \/ 0 <= int64_abs (wrap64 d).
Proof. unfold int64_abs, wrap64. Z.div_mod_to_equations. lia. Qed.

(** Wrapping never makes the distance larger than the Manhattan
    distance of the two points. *)
Lemma screen_delta_le (start end_ : Z * Z) :
  screen_delta start end_
    <= Z.abs (fst end_ - fst start) + Z.abs (snd end_ - snd start).
Proof.
  unfold screen_delta, int64_sub, int64_add.
  pose proof (int64_abs_le (fst end_ - fst start)) as H1.
  pose proof (int64_abs_le (snd end_ - snd start)) as H2.
  pose proof (int64_abs_cases (fst end_ - fst start)) as C1.
  pose proof (int64_abs_cases (snd end_ - snd start)) as C2.
  pose proof (wrap64_range (Z.abs (wrap64 (fst end_ - fst start)))) as R1.
  pose proof (wrap64_range (Z.abs (wrap64 (snd end_ - snd start)))) as R2.
  fold (int64_abs (wrap64 (fst end_ - fst start))) in R1.
  fold (int64_abs (wrap64 (snd end_ - snd start))) in R2.
  generalize dependent (int64_abs (wrap64 (fst end_ - fst start))).
  generalize dependent (int64_abs (wrap64 (snd end_ - snd start))).
  intros b H2 C2 R2 a H1 C1 R1.
  unfold wrap64. Z.div_mod_to_equations. lia.
Qed.

(** Below 2^63 nothing wraps: the distance is the Manhattan distance. *)
Lemma screen_delta_exact (start end_ : Z * Z) :
  Z.abs (fst end_ - fst start) + Z.abs (snd end_ - snd start)
    < 9223372036854775808 ->
  screen_delta start end_
    = Z.abs (fst end_ - fst start) + Z.abs (snd end_ - snd start).
Proof.
  intros H. unfold screen_delta, int64_sub, int64_add, int64_abs.
  rewrite (wrap64_small (fst end_ - fst start)) by lia.
  rewrite (wrap64_small (snd end_ - snd start)) by lia.
  rewrite (wrap64_small (Z.abs (fst end_ - fst start))) by lia.
  rewrite (wrap64_small (Z.abs (snd end_ - snd start))) by lia.
  apply wrap64_small. lia.
Qed.

End ScreenDelta.

(** ** Reading a mapper back after an assignment *)

Section ReadBack.

Context {Mapper : Type} {mapper_api : MapperAPI Mapper}.

Lemma get_update_mapper (r : MapperRef) (f : Mapper -> Mapper)
    (c : Component Mapper) :
  get_mapper r (update_mapper r f c) = f (get_mapper r c) /\
  get_mapper (other_mapper r) (update_mapper r f c)
    = get_mapper (other_mapper r) c.
Proof. destruct r; split; reflexivity. Qed.

Lemma get_mapper_add_redraw (r : MapperRef) (c : Component Mapper) :
  get_mapper r (add_redraw_request c) = get_mapper r c.
Proof. destruct r; reflexivity. Qed.

(** The x and the y mapper are two different mappers: an assignment to
    one range does not show in the other. *)
Lemma x_update_read_back (fx : Mapper -> Mapper) (c : Component Mapper) :
  x_mapper (update_mapper (x_mapper_ref c) fx c) = fx (x_mapper c) /\
  y_mapper (update_mapper (x_mapper_ref c) fx c) = y_mapper c.
Proof.
  unfold x_mapper, y_mapper, x_mapper_ref, y_mapper_ref.
  destruct c as [[] im vm at_ cx cy cx2 cy2 rr]; split; reflexivity.
Qed.

Lemma xy_update_redraw_read_back (fx fy : Mapper -> Mapper)
    (c : Component Mapper) :
  x_mapper (add_redraw_request
              (update_mapper (y_mapper_ref c) fy
                 (update_mapper (x_mapper_ref c) fx c))) = fx (x_mapper c) /\
  y_mapper (add_redraw_request
              (update_mapper (y_mapper_ref c) fy
                 (update_mapper (x_mapper_ref c) fx c))) = fy (y_mapper c).
Proof.
  unfold x_mapper, y_mapper, x_mapper_ref, y_mapper_ref.
  destruct c as [[] im vm at_ cx cy cx2 cy2 rr]; split; reflexivity.
Qed.

Lemma xyxy_update_redraw_read_back (fx fy gx gy : Mapper -> Mapper)
    (c : Component Mapper) :
  x_mapper (add_redraw_request
              (update_mapper (y_mapper_ref c) gy
                 (update_mapper (x_mapper_ref c) gx
                    (update_mapper (y_mapper_ref c) fy
                       (update_mapper (x_mapper_ref c) fx c)))))
    = gx (fx (x_mapper c)) /\
  y_mapper (add_redraw_request
              (update_mapper (y_mapper_ref c) gy
                 (update_mapper (x_mapper_ref c) gx
                    (update_mapper (y_mapper_ref c) fy
                       (update_mapper (x_mapper_ref c) fx c)))))
    = gy (fy (y_mapper c)).
Proof.
  unfold x_mapper, y_mapper, x_mapper_ref, y_mapper_ref.
  destruct c as [[] im vm at_ cx cy cx2 cy2 rr]; split; reflexivity.
Qed.

(** Two assignments to the range of one mapper. *)
Lemma twice_update_redraw_read_back (r : MapperRef) (f g : Mapper -> Mapper)
    (c : Component Mapper) :
  get_mapper r (add_redraw_request (update_mapper r g (update_mapper r f c)))
    = g (f (get_mapper r c)) /\
  get_mapper (other_mapper r)
    (add_redraw_request (update_mapper r g (update_mapper r f c)))
    = get_mapper (other_mapper r) c.
Proof. destruct r; split; reflexivity. Qed.

Lemma redraw_requests_update_mapper (r : MapperRef) (f : Mapper -> Mapper)
    (c : Component Mapper) :
  redraw_requests (update_mapper r f c) = redraw_requests c.
Proof. destruct r; reflexivity. Qed.

End ReadBack.

(** ** The tool *)

Section ToolFacts.

Context {Mapper : Type} {mapper_api : MapperAPI Mapper}.

Local Open Scope py_scope.

(** Unfolding of the plumbing, leaving the methods' own structure. *)
Ltac run :=
  unfold bind, gets, modify, ret, raise, lift, when; cbn.

(** *** The mouse wheel leaves the tool object alone *)

Lemma limit_reached_world (ol oh nl nh : float) (w : World Mapper) :
  limit_reached ol oh nl nh w =
    (_zoom_limit_reached (max_zoom_in_factor (traits (self w)))
       (max_zoom_out_factor (traits (self w))) ol oh nl nh, w).
Proof. reflexivity. Qed.

Lemma wheel_loop_self (zoom : float) (low_pt high_pt mouse_pos : float * float)
    (orig : ZoomState) (l : list (nat * MapperRef)) :
  forall w : World Mapper,
    self (snd (wheel_loop zoom low_pt high_pt mouse_pos orig l w)) = self w.
Proof.
  induction l as [| [ndx datarange] rest IH]; intros w.
  - reflexivity.
  - cbn [wheel_loop]. unfold bind at 1. rewrite limit_reached_world.
    destruct (_zoom_limit_reached _ _ _ _ _ _) as [[|] | e]; cbn; try reflexivity.
    rewrite IH. reflexivity.
Qed.

(** The handler, step by step. *)
Lemma normal_mouse_wheel_run (event : Event) (w : World Mapper) :
  normal_mouse_wheel event w =
    if enable_wheel (traits (self w)) && negb (mouse_wheel event =? 0)%Z then
      match wheel_zoom (self w) event with
      | Raise e => (Raise e, w)
      | Ok zoom =>
          let c := component w in
          let pts := _map_coordinate_box c (c_x c, c_y c) (c_x2 c, c_y2 c) in
          match _history (self w) with
          | [] => (Raise IndexError, w)
          | orig :: _ =>
              wheel_loop zoom (fst pts) (snd pts)
                (map_data (x_mapper c) (x event), map_data (y_mapper c) (y event))
                orig (wheel_dataranges (self w) c) w
          end
      end
    else (Ok tt, w).
Proof.
  unfold normal_mouse_wheel, history_first, bind, gets, ret, lift, raise.
  destruct (enable_wheel (traits (self w)) && negb (mouse_wheel event =? 0)%Z);
    [| reflexivity].
  destruct (wheel_zoom (self w) event) as [zoom | e]; [| reflexivity].
  destruct (_history (self w)) as [| orig h]; reflexivity.
Qed.

(** Neither does it touch the event window, and of the component only
    the ranges and the redraw count. *)
Lemma normal_mouse_wheel_self (event : Event) (w : World Mapper) :
  self (snd (normal_mouse_wheel event w)) = self w.
Proof.
  rewrite normal_mouse_wheel_run.
  destruct (enable_wheel (traits (self w)) && negb (mouse_wheel event =? 0)%Z);
    [| reflexivity].
  destruct (wheel_zoom (self w) event) as [zoom | e]; [| reflexivity].
  cbv zeta. destruct (_history (self w)) as [| orig h]; [reflexivity |].
  apply wheel_loop_self.
Qed.

(** C9: no mouse-wheel event creates, removes or modifies a history
    entry or moves the history index: after [normal_mouse_wheel], for
    every event and every world (wheel enabled or not, zoom applied,
    rejected or raised), [_history] and [_history_index] are what they
    were. *)
Theorem wheel_preserves_history (event : Event) (w : World Mapper) :
  _history (self (snd (normal_mouse_wheel event w))) = _history (self w) /\
  _history_index (self (snd (normal_mouse_wheel event w))) =
    _history_index (self w).
Proof.
  rewrite normal_mouse_wheel_self. split; reflexivity.
Qed.

(** *** Starting a gesture *)

(** Under contention [_start_select] disarms the tool, leaves the slot
    to its holder and goes on to start the selection all the same. *)
Lemma _start_select_under_contention (event : Event) (w : World Mapper) :
  none_or_tool (active_tool (component w)) (self_id w) = false ->
  fst (_start_select event w) = Ok tt /\
  event_state (self (snd (_start_select event w))) = StateSelecting /\
  _enabled (self (snd (_start_select event w))) = false /\
  _screen_start (self (snd (_start_select event w))) = Some (x event, y event) /\
  mouse_owner (window (snd (_start_select event w))) = Some (self_id w) /\
  active_tool (component (snd (_start_select event w))) =
    active_tool (component w).
Proof.
  intros H. unfold _start_select. run. rewrite H. cbn. repeat split.
Qed.

(** When the slot is free or already the tool's own, the tool takes it
    and starts the selection. *)
Lemma _start_select_free (event : Event) (w : World Mapper) :
  none_or_tool (active_tool (component w)) (self_id w) = true ->
  fst (_start_select event w) = Ok tt /\
  event_state (self (snd (_start_select event w))) = StateSelecting /\
  _enabled (self (snd (_start_select event w))) = _enabled (self w) /\
  active_tool (component (snd (_start_select event w))) = Some (self_id w).
Proof.
  intros H. unfold _start_select. run. rewrite H. cbn. repeat split.
Qed.

(** *** A drag below the threshold *)

(** C7: a button-up of the configured drag button in the selecting
    state, at a Manhattan distance from the start point below
    [minimum_screen_delta], returns normally, leaves the history, its
    index and both mappers as they were, ends the gesture (the tool is
    back in the normal state) and marks the event handled. *)
Theorem short_drag_discarded (w : World Mapper) (event : Event) (start : Z * Z) :
  event_state (self w) = StateSelecting ->
  _screen_start (self w) = Some start ->
  (Z.abs (x event - fst start) + Z.abs (y event - snd start)
     < minimum_screen_delta (traits (self w)))%Z ->
  let w' := snd (selecting_button_up (drag_button (traits (self w))) event w) in
  fst (selecting_button_up (drag_button (traits (self w))) event w) = Ok tt /\
  _history (self w') = _history (self w) /\
  _history_index (self w') = _history_index (self w) /\
  index_mapper (component w') = index_mapper (component w) /\
  value_mapper (component w') = value_mapper (component w) /\
  event_state (self w') = StateNormal /\
  handled w' = true.
Proof.
  intros _ Hstart Hdelta w'. subst w'.
  assert (Hd : (screen_delta start (x event, y event)
                <? minimum_screen_delta (traits (self w)))%Z = true).
  { apply Z.ltb_lt.
    pose proof (screen_delta_le start (x event, y event)) as Hle.
    cbn [fst snd] in Hle. lia. }
  assert (E : selecting_button_up (drag_button (traits (self w))) event w
              = _end_select event w).
  { destruct (drag_button (traits (self w))) eqn:Eb; cbn [selecting_button_up];
      unfold selecting_left_up, selecting_right_up, bind, gets;
      rewrite Eb; reflexivity. }
  assert (E2 : _end_select event w =
               (_end_selecting (Some event) ;; modify (set_handled true))
                 (update_self (set__screen_end (Some (x event, y event))) w)).
  { unfold _end_select.
    unfold bind at 1, modify at 1. cbv beta iota.
    unfold bind at 1, gets at 1. cbv beta iota.
    cbn [self update_self _screen_start set__screen_end traits].
    rewrite Hstart, Hd. reflexivity. }
  rewrite E, E2. unfold _end_selecting, disable, reset. run.
  destruct (disable_on_complete (traits (self w))); cbn;
    repeat match goal with
           | |- context [is_tool ?s ?m] => destruct (is_tool s m); cbn
           end;
    repeat split.
Qed.

(** *** The apply step *)

Lemma is_limited_true (r : result bool) : is_limited r = true -> r = Ok true.
Proof. destruct r as [[|] | e]; cbn; congruence. Qed.

(** At a nonzero index, a limited entry makes [_do_zoom] exactly
    [_pop_state]. *)
Lemma _do_zoom_limited (w : World Mapper) :
  _history_index (self w) <> 0%nat ->
  candidate_limited (self w) = true ->
  _do_zoom w = _pop_state w.
Proof.
  intros Hidx Hlim.
  apply Nat.eqb_neq in Hidx.
  unfold candidate_limited, axis_limited in Hlim.
  unfold _do_zoom, _current_state, history_first, limit_reached. run.
  destruct (_history (self w)) as [| orig h] eqn:Eh; [discriminate |].
  destruct (nth_error (orig :: h) (_history_index (self w))) as [cur |] eqn:Ec;
    [| discriminate].
  cbn. rewrite Eh. cbn. rewrite Hidx.
  destruct (tool_mode (traits (self w))), orig as [ol oh | ol oh],
    cur as [l h' | l h']; try discriminate; cbn; cbn [item] in Hlim.
  - apply orb_true_iff in Hlim. destruct Hlim as [H0 | H1].
    + rewrite (is_limited_true _ H0). reflexivity.
    + destruct (_zoom_limit_reached_total
                  (max_zoom_in_factor (traits (self w)))
                  (max_zoom_out_factor (traits (self w)))
                  (fst ol) (fst oh) (fst l) (fst h')) as [b0 E0].
      rewrite E0. destruct b0; cbn; [reflexivity |].
      rewrite (is_limited_true _ H1). reflexivity.
  - rewrite (is_limited_true _ Hlim). reflexivity.
Qed.

(** C2: when [_do_zoom] runs at a history index greater than 0 and the
    zoom-limit policy reports the entry at that index limited (in box
    mode: on either axis), it returns normally and leaves the world
    [_pop_state] leaves: the component is exactly what it was (in box
    mode neither the x nor the y bounds change, whichever axis exceeded
    the limit, and no redraw is requested), and when the entry is the
    last one, as a just-pushed entry is, the history is the old one
    without it and the index is one less. *)
Theorem do_zoom_limited_rejects (w : World Mapper) :
  _history_index (self w) <> 0%nat ->
  candidate_limited (self w) = true ->
  let w' := snd (_do_zoom w) in
  fst (_do_zoom w) = Ok tt /\
  w' = snd (_pop_state w) /\
  component w' = component w /\
  (S (_history_index (self w)) = List.length (_history (self w)) ->
   _history (self w') = removelast (_history (self w)) /\
   _history_index (self w') = Nat.pred (_history_index (self w))).
Proof.
  intros Hidx Hlim w'. subst w'.
  rewrite (_do_zoom_limited w Hidx Hlim). repeat split.
Qed.

(** A push that the policy rejects is rolled back: the pushed entry is
    the one removed, and the index is back where it was. *)
Lemma rejected_push_rolls_back (w : World Mapper) (state : ZoomState) :
  _history_index (self w) < List.length (_history (self w)) ->
  candidate_limited (self (snd (_append_state state w))) = true ->
  let w' := snd (_do_zoom (snd (_append_state state w))) in
  component w' = component w /\
  _history (self w') = firstn (S (_history_index (self w))) (_history (self w)) /\
  _history_index (self w') = _history_index (self w).
Proof.
  intros Hlt Hlim w'. subst w'.
  assert (Hlen : List.length (firstn (S (_history_index (self w)))
                                (_history (self w)) ++ [state]) - 1
                 = S (_history_index (self w))).
  { rewrite length_app, length_firstn. cbn [List.length]. lia. }
  assert (Hi : _history_index (self (snd (_append_state state w)))
               = S (_history_index (self w))) by exact Hlen.
  assert (Hh : _history (self (snd (_append_state state w)))
               = firstn (S (_history_index (self w))) (_history (self w))
                 ++ [state]) by reflexivity.
  rewrite _do_zoom_limited; [| rewrite Hi; discriminate | exact Hlim].
  unfold _pop_state, modify, update_self.
  cbn [snd component self _history _history_index set__history].
  rewrite Hh, Hi, removelast_last. repeat split.
Qed.

(** C6: when [_do_zoom] runs with the history index at 0, on a tool
    whose original settings are those its constructor captured from the
    component [c0], it returns normally and the world it leaves is the
    one it found with: the [low_setting] and then the [high_setting] of
    the tool's mapper range assigned the settings read from [c0] (in
    box mode the x and y ranges, low settings first), and one redraw
    requested. Read back from the component afterwards, the tool's
    mapper is the one that was there with exactly these two settings
    assigned (in box mode the x mapper with the x settings and the y
    mapper with the y settings), and in range mode the other mapper is
    as it was. No numeric bound is assigned, the tool object is
    untouched, and the outcome does not depend on the maximum zoom
    factors or on the history entries: no zoom-limit check takes
    place. *)
Theorem do_zoom_at_origin_restores_settings (w : World Mapper)
    (c0 : Component Mapper) (me : ToolId) (win : Window) :
  _history_index (self w) = 0%nat ->
  _history (self w) <> [] ->
  _orig_low_setting (self w) =
    _orig_low_setting (self (__init__ c0 (traits (self w)) me win)) ->
  _orig_high_setting (self w) =
    _orig_high_setting (self (__init__ c0 (traits (self w)) me win)) ->
  let c := component w in
  let c' := component (snd (_do_zoom w)) in
  _do_zoom w =
    (Ok tt,
     update_component add_redraw_request
       (update_component
          (fun c =>
             match tool_mode (traits (self w)) with
             | ModeRange =>
                 let m := _get_mapper (self w) in
                 update_mapper m
                   (set_range_high_setting (range_high_setting (get_mapper m c0)))
                   (update_mapper m
                      (set_range_low_setting (range_low_setting (get_mapper m c0)))
                      c)
             | ModeBox =>
                 update_mapper (y_mapper_ref c)
                   (set_range_high_setting (range_high_setting (y_mapper c0)))
                   (update_mapper (x_mapper_ref c)
                      (set_range_high_setting (range_high_setting (x_mapper c0)))
                      (update_mapper (y_mapper_ref c)
                         (set_range_low_setting (range_low_setting (y_mapper c0)))
                         (update_mapper (x_mapper_ref c)
                            (set_range_low_setting
                               (range_low_setting (x_mapper c0)))
                            c)))
             end) w)) /\
  match tool_mode (traits (self w)) with
  | ModeRange =>
      let r := _get_mapper (self w) in
      get_mapper r c' =
        set_range_high_setting (range_high_setting (get_mapper r c0))
          (set_range_low_setting (range_low_setting (get_mapper r c0))
             (get_mapper r c)) /\
      get_mapper (other_mapper r) c' = get_mapper (other_mapper r) c
  | ModeBox =>
      x_mapper c' =
        set_range_high_setting (range_high_setting (x_mapper c0))
          (set_range_low_setting (range_low_setting (x_mapper c0)) (x_mapper c)) /\
      y_mapper c' =
        set_range_high_setting (range_high_setting (y_mapper c0))
          (set_range_low_setting (range_low_setting (y_mapper c0)) (y_mapper c))
  end /\
  self (snd (_do_zoom w)) = self w /\
  redraw_requests c' = S (redraw_requests c).
Proof.
  intros Hidx Hne Hlo Hhi c c'.
  match goal with
  | |- ?lhs = ?rhs /\ _ => assert (E : lhs = rhs)
  end.
  { unfold __init__ in Hlo, Hhi.
    unfold _do_zoom, _current_state, history_first. run.
    rewrite Hidx.
    destruct (_history (self w)) as [| orig h] eqn:Eh; [congruence |].
    cbn. rewrite Eh. cbn. rewrite ?Hidx. cbn.
    destruct (tool_mode (traits (self w))); cbn in Hlo, Hhi;
      rewrite Hlo; cbn; rewrite Hhi; reflexivity. }
  split; [exact E |].
  subst c'. rewrite E. cbn [snd component update_component self].
  split; [| split; [reflexivity |]].
  - destruct (tool_mode (traits (self w))).
    + apply xyxy_update_redraw_read_back.
    + apply twice_update_redraw_read_back.
  - cbn [redraw_requests add_redraw_request]. f_equal.
    destruct (tool_mode (traits (self w))); cbv zeta;
      rewrite !redraw_requests_update_mapper; reflexivity.
Qed.

(** *** Handlers on well-formed worlds *)

Lemma Forall_firstn_keep {A : Type} (P : A -> Prop) (n : nat) (l : list A) :
  Forall P l -> Forall P (firstn n l).
Proof.
  intros H. rewrite <- (firstn_skipn n l) in H.
  apply Forall_app in H. tauto.
Qed.

Lemma __init___well_formed (c : Component Mapper) (kw : Traits)
    (me : ToolId) (win : Window) :
  well_formed (__init__ c kw me win).
Proof.
  unfold well_formed, __init__, _reset_state_to_current, _reset_state. run.
  destruct (tool_mode kw) eqn:Em; cbn; rewrite Em; cbn;
    repeat split; auto.
Qed.

Lemma _do_zoom_well_formed (w : World Mapper) :
  well_formed w ->
  fst (_do_zoom w) = Ok tt /\ well_formed (snd (_do_zoom w)).
Proof.
  destruct w as [[tr es en ols ohs ss se hist idx] me c win hd].
  destruct tr as [mode ao ax zin zout ew db step doc msd ptr].
  unfold well_formed. cbn. intros (Hidx & Hshape & Hlo & Hhi).
  destruct hist as [| orig h]; [cbn in Hidx; lia |].
  destruct (nth_error (orig :: h) idx) as [cur |] eqn:Ec;
    [| apply nth_error_None in Ec; lia].
  assert (Ho : state_shape mode orig = true) by (inversion Hshape; assumption).
  assert (Hc : state_shape mode cur = true).
  { rewrite Forall_forall in Hshape. apply Hshape.
    eapply nth_error_In; eassumption. }
  unfold _do_zoom, _current_state, history_first, limit_reached. run.
  rewrite Ec. cbn.
  destruct (Nat.eqb idx 0) eqn:E0.
  - destruct mode, ols; try discriminate; destruct ohs; try discriminate;
      cbn; repeat split; auto.
  - apply Nat.eqb_neq in E0.
    assert (Hpop : Nat.pred idx < List.length (removelast (orig :: h))).
    { rewrite removelast_firstn_len, length_firstn. cbn [List.length] in *. lia. }
    assert (Hrem : Forall (fun s => state_shape mode s = true)
                     (removelast (orig :: h))).
    { rewrite removelast_firstn_len. apply Forall_firstn_keep. exact Hshape. }
    destruct mode, orig as [ol oh | ol oh], cur as [l h' | l h'];
      try discriminate; cbn.
    + destruct (_zoom_limit_reached_total zin zout
                  (fst ol) (fst oh) (fst l) (fst h')) as [b0 ->].
      destruct b0; cbn; [repeat split; auto |].
      destruct (_zoom_limit_reached_total zin zout
                  (snd ol) (snd oh) (snd l) (snd h')) as [b1 ->].
      destruct b1; cbn; repeat split; auto.
    + destruct (_zoom_limit_reached_total zin zout ol oh l h') as [b ->].
      destruct b; cbn; repeat split; auto.
Qed.

Lemma bind_run {A B : Type} (m : M Mapper A) (k : A -> M Mapper B)
    (w w' : World Mapper) (a : A) :
  m w = (Ok a, w') -> bind m k w = k a w'.
Proof. intros H. unfold bind. rewrite H. reflexivity. Qed.

Lemma same_history_well_formed (w w' : World Mapper) :
  same_history w w' -> well_formed w -> well_formed w'.
Proof.
  unfold same_history, well_formed. cbn.
  intros (-> & -> & -> & -> & ->). trivial.
Qed.

Lemma same_history_trans (w1 w2 w3 : World Mapper) :
  same_history w1 w2 -> same_history w2 w3 -> same_history w1 w3.
Proof.
  unfold same_history. intros (a1 & a2 & a3 & a4 & a5) (b1 & b2 & b3 & b4 & b5).
  repeat split; congruence.
Qed.

Lemma _end_selecting_same_history (event : option Event) (w : World Mapper) :
  fst (_end_selecting event w) = Ok tt /\
  same_history w (snd (_end_selecting event w)) /\
  event_state (self (snd (_end_selecting event w))) = StateNormal.
Proof.
  unfold same_history, _end_selecting, disable, reset. run.
  destruct (disable_on_complete (traits (self w))), event; cbn;
    repeat match goal with
           | |- context [is_tool ?s ?m] => destruct (is_tool s m); cbn
           end;
    repeat split.
Qed.

Lemma _start_select_same_history (event : Event) (w : World Mapper) :
  fst (_start_select event w) = Ok tt /\
  same_history w (snd (_start_select event w)).
Proof.
  unfold same_history, _start_select, selecting_mouse_move. run.
  destruct (none_or_tool (active_tool (component w)) (self_id w)); cbn;
    repeat split.
Qed.

Lemma _append_state_well_formed (state : ZoomState) (w : World Mapper) :
  well_formed w ->
  state_shape (tool_mode (traits (self w))) state = true ->
  well_formed (snd (_append_state state w)).
Proof.
  unfold well_formed. intros (Hidx & Hshape & Hlo & Hhi) Hs.
  unfold _append_state, modify, update_self.
  cbn [snd self set__history traits _history _history_index
       _orig_low_setting _orig_high_setting].
  repeat split; auto.
  - rewrite length_app. cbn [List.length]. lia.
  - apply Forall_app. split; [apply Forall_firstn_keep; exact Hshape |].
    constructor; [exact Hs | constructor].
Qed.

(** A press of either button, in the normal state. *)
Lemma normal_button_down_well_formed (b : Button) (event : Event)
    (w : World Mapper) :
  well_formed w ->
  fst (normal_button_down b event w) = Ok tt /\
  well_formed (snd (normal_button_down b event w)).
Proof.
  intros Hwf.
  destruct (_start_select_same_history event w) as [Hok Hsame].
  destruct b; cbn [normal_button_down];
    unfold normal_left_down, normal_right_down, bind, gets, ret;
    destruct (always_on (traits (self w)) || _enabled (self w));
    destruct (drag_button (traits (self w))); cbn [fst snd]; auto;
    (split; [exact Hok | exact (same_history_well_formed _ _ Hsame Hwf)]).
Qed.

(** A release in the selecting state: whether the drag is discarded,
    applied or rejected, [_end_select] returns normally. *)
Lemma _end_select_well_formed (event : Event) (w : World Mapper)
    (start : Z * Z) :
  well_formed w ->
  _screen_start (self w) = Some start ->
  fst (_end_select event w) = Ok tt /\
  well_formed (snd (_end_select event w)) /\
  event_state (self (snd (_end_select event w))) = StateNormal.
Proof.
  intros Hwf Hstart.
  enough (H : exists w', _end_select event w = (Ok tt, w') /\ well_formed w'
                         /\ event_state (self w') = StateNormal)
    by (destruct H as (w' & -> & H); split; [reflexivity | exact H]).
  unfold _end_select.
  unfold bind at 1, modify at 1. cbv beta iota.
  unfold bind at 1, gets at 1. cbv beta iota.
  cbn [self update_self _screen_start set__screen_end traits]. rewrite Hstart.
  set (w1 := update_self (set__screen_end (Some (x event, y event))) w).
  assert (Hwf1 : well_formed w1) by exact Hwf.
  destruct (screen_delta start (x event, y event)
            <? minimum_screen_delta (traits (self w)))%Z.
  - destruct (_end_selecting_same_history (Some event) w1) as (Hok & Hsame & Hn).
    destruct (_end_selecting (Some event) w1) as [r w2] eqn:E2.
    cbn [fst snd] in Hok, Hsame, Hn. subst r.
    rewrite (bind_run _ _ _ _ _ E2).
    eexists. split; [reflexivity |].
    split; [exact (same_history_well_formed _ _ Hsame Hwf1) | exact Hn].
  - unfold bind at 1, gets at 1. cbv beta iota.
    match goal with
    | |- context [bind ?m _ w1] =>
        assert (Hpush : exists state,
                  state_shape (tool_mode (traits (self w))) state = true /\
                  m w1 = (Ok tt, snd (_append_state state w1)))
    end.
    { destruct (tool_mode (traits (self w))) eqn:Em.
      - eexists. split; [| reflexivity]. reflexivity.
      - cbv zeta.
        destruct (py_gt _ _); (eexists; split; [| reflexivity]; reflexivity). }
    destruct Hpush as (state & Hs & Hpush).
    rewrite (bind_run _ _ w1 _ tt Hpush).
    pose proof (_append_state_well_formed state w1 Hwf1 Hs) as Hwf2.
    destruct (_do_zoom_well_formed _ Hwf2) as [Hok3 Hwf3].
    destruct (_do_zoom (snd (_append_state state w1))) as [r3 w3] eqn:E3.
    cbn [fst snd] in Hok3, Hwf3. subst r3.
    rewrite (bind_run _ _ _ _ tt E3).
    destruct (_end_selecting_same_history (Some event) w3) as (Hok4 & Hsame4 & Hn).
    destruct (_end_selecting (Some event) w3) as [r4 w4] eqn:E4.
    cbn [fst snd] in Hok4, Hsame4, Hn. subst r4.
    rewrite (bind_run _ _ _ _ tt E4).
    eexists. split; [reflexivity |].
    split; [exact (same_history_well_formed _ _ Hsame4 Hwf3) | exact Hn].
Qed.

Lemma wheel_loop_ok (zoom : float) (low_pt high_pt mouse_pos : float * float)
    (orig : ZoomState) (l : list (nat * MapperRef)) :
  forall w : World Mapper,
    fst (wheel_loop zoom low_pt high_pt mouse_pos orig l w) = Ok tt.
Proof.
  induction l as [| [ndx datarange] rest IH]; intros w.
  - reflexivity.
  - cbn [wheel_loop]. unfold bind at 1. rewrite limit_reached_world.
    destruct (_zoom_limit_reached_total
                (max_zoom_in_factor (traits (self w)))
                (max_zoom_out_factor (traits (self w)))
                (fst (wheel_orig orig ndx)) (snd (wheel_orig orig ndx))
                (wheel_newlow zoom (item mouse_pos ndx) (item low_pt ndx))
                (wheel_newhigh zoom (item mouse_pos ndx) (item high_pt ndx)))
      as [b ->].
    destruct b; [reflexivity |].
    unfold bind, assign_range, modify. apply IH.
Qed.

(** The zoom factor is there unless a zoom-in divides by zero. *)
Lemma wheel_zoom_cases (t : SimpleZoom) (event : Event) :
  (exists zoom, wheel_zoom t event = Ok zoom) \/
  (wheel_zoom t event = Raise ZeroDivisionError /\
   (0 < mouse_wheel event)%Z /\
   py_eq (1.0 + 0.5 * wheel_zoom_step (traits t))%float 0 = true).
Proof.
  unfold wheel_zoom, py_div.
  destruct (0 <? mouse_wheel event)%Z eqn:Epos; [| left; eauto].
  destruct (py_eq (1.0 + 0.5 * wheel_zoom_step (traits t))%float 0) eqn:Ez;
    [| left; eauto].
  right. apply Z.ltb_lt in Epos. auto.
Qed.

Lemma normal_mouse_wheel_well_formed (event : Event) (w : World Mapper) :
  well_formed w ->
  well_formed (snd (normal_mouse_wheel event w)) /\
  returned_or_zero_division (self w) (fst (normal_mouse_wheel event w)).
Proof.
  intros Hwf. split.
  - unfold well_formed. rewrite (normal_mouse_wheel_self event w). exact Hwf.
  - destruct Hwf as (Hidx & _).
    rewrite normal_mouse_wheel_run.
    destruct (enable_wheel (traits (self w)) && negb (mouse_wheel event =? 0)%Z);
      [| left; reflexivity].
    destruct (wheel_zoom_cases (self w) event) as [[zoom ->] | (-> & _ & Hz)].
    + cbv zeta. destruct (_history (self w)) as [| orig h]; [cbn in Hidx; lia |].
      left. apply wheel_loop_ok.
    + right. split; [reflexivity | exact Hz].
Qed.

(** *** No handler assigns a configuration trait *)

Lemma _end_selecting_traits (event : option Event) (w : World Mapper) :
  traits (self (snd (_end_selecting event w))) = traits (self w).
Proof.
  destruct (_end_selecting_same_history event w) as (_ & (Ht & _) & _).
  exact Ht.
Qed.

Lemma _do_zoom_traits (w : World Mapper) :
  traits (self (snd (_do_zoom w))) = traits (self w).
Proof.
  destruct w as [[tr es en ols ohs ss se hist idx] me c win hd].
  unfold _do_zoom, _current_state, history_first, limit_reached. run.
  destruct (nth_error hist idx) as [cur |]; [| reflexivity]. cbn.
  destruct hist as [| orig h]; [reflexivity |]. cbn.
  destruct (Nat.eqb idx 0).
  - destruct (tool_mode tr), ols; try reflexivity; destruct ohs; reflexivity.
  - destruct (tool_mode tr), orig as [ol oh | ol oh], cur as [l h' | l h'];
      try reflexivity; cbn.
    + destruct (_zoom_limit_reached _ _ _ _ _ _) as [[|] | e]; try reflexivity.
      cbn. destruct (_zoom_limit_reached _ _ _ _ _ _) as [[|] | e]; reflexivity.
    + destruct (_zoom_limit_reached _ _ _ _ _ _) as [[|] | e]; reflexivity.
Qed.

Lemma _end_select_traits (event : Event) (w : World Mapper) :
  traits (self (snd (_end_select event w))) = traits (self w).
Proof.
  enough (H : forall r w', _end_select event w = (r, w') ->
                           traits (self w') = traits (self w))
    by (destruct (_end_select event w) as [r w'] eqn:E; exact (H r w' eq_refl)).
  intros r w'. unfold _end_select.
  unfold bind at 1, modify at 1. cbv beta iota.
  unfold bind at 1, gets at 1. cbv beta iota.
  cbn [self update_self _screen_start set__screen_end traits].
  set (w1 := update_self (set__screen_end (Some (x event, y event))) w).
  assert (Ht1 : traits (self w1) = traits (self w)) by reflexivity.
  destruct (_screen_start (self w)) as [start |];
    [| unfold raise; intros E; injection E as _ <-; exact Ht1].
  destruct (screen_delta start (x event, y event)
            <? minimum_screen_delta (traits (self w)))%Z.
  - pose proof (_end_selecting_traits (Some event) w1) as Ht2.
    unfold bind, modify.
    destruct (_end_selecting (Some event) w1) as [[[] | e] w2];
      cbn [snd] in Ht2; intros E; injection E as _ <-; cbn; congruence.
  - unfold bind at 1, gets at 1. cbv beta iota.
    match goal with
    | |- context [bind ?m _ w1] =>
        assert (Hpush : exists state, m w1 = (Ok tt, snd (_append_state state w1)))
    end.
    { destruct (tool_mode (traits (self w))).
      - eexists. reflexivity.
      - cbv zeta. destruct (py_gt _ _); eexists; reflexivity. }
    destruct Hpush as (state & Hpush).
    rewrite (bind_run _ _ w1 _ tt Hpush).
    set (w2 := snd (_append_state state w1)).
    assert (Ht2 : traits (self w2) = traits (self w)) by reflexivity.
    pose proof (_do_zoom_traits w2) as Ht3.
    unfold bind at 1.
    destruct (_do_zoom w2) as [[[] | e] w3]; cbn [snd] in Ht3;
      [| intros E; injection E as _ <-; congruence].
    pose proof (_end_selecting_traits (Some event) w3) as Ht4.
    unfold bind, modify.
    destruct (_end_selecting (Some event) w3) as [[[] | e] w4];
      cbn [snd] in Ht4; intros E; injection E as _ <-; cbn; congruence.
Qed.

Lemma _start_select_traits (event : Event) (w : World Mapper) :
  traits (self (snd (_start_select event w))) = traits (self w).
Proof.
  destruct (_start_select_same_history event w) as (_ & Ht & _). exact Ht.
Qed.

Lemma dispatch_traits (kind : MouseEventKind) (event : Event)
    (w : World Mapper) :
  traits (self (snd (dispatch kind event w))) = traits (self w).
Proof.
  enough (H : forall r w', dispatch kind event w = (r, w') ->
                           traits (self w') = traits (self w))
    by (destruct (dispatch kind event w) as [r w'] eqn:E; exact (H r w' eq_refl)).
  intros r w'. unfold dispatch.
  unfold bind at 1, modify at 1. cbv beta iota.
  unfold bind at 1, gets at 1. cbv beta iota.
  cbn [self set_handled].
  set (w0 := set_handled false w).
  assert (Ht0 : traits (self w0) = traits (self w)) by reflexivity.
  pose proof (_start_select_traits event w0) as Hs.
  pose proof (_end_select_traits event w0) as He.
  pose proof (_end_selecting_traits (Some event) w0) as Hl.
  pose proof (normal_mouse_wheel_self event w0) as Hw.
  destruct (event_state (self w)), kind;
    unfold normal_left_down, normal_right_down, selecting_left_up,
      selecting_right_up, selecting_mouse_leave, selecting_mouse_move,
      request_redraw, bind, gets, modify, ret;
    cbn [self set_handled];
    repeat match goal with
           | |- context [if ?b then _ else _] => destruct b
           | |- context [match drag_button ?t with _ => _ end] =>
               destruct (drag_button t)
           end;
    intros E;
    repeat match goal with
           | H : context [snd ?m] |- _ =>
               match type of E with
               | m = _ => rewrite E in H; cbn [snd] in H
               end
           end;
    try (injection E as _ <-; reflexivity);
    congruence.
Qed.

(** *** What mouse events keep *)

Lemma _start_select_screen_start (event : Event) (w : World Mapper) :
  _screen_start (self (snd (_start_select event w))) = Some (x event, y event).
Proof.
  unfold _start_select, selecting_mouse_move. run.
  destruct (none_or_tool (active_tool (component w)) (self_id w)); reflexivity.
Qed.

Lemma normal_button_down_between_events (b : Button) (event : Event)
    (w : World Mapper) :
  between_events w ->
  fst (normal_button_down b event w) = Ok tt /\
  between_events (snd (normal_button_down b event w)).
Proof.
  intros [Hwf Hsel].
  destruct (normal_button_down_well_formed b event w Hwf) as [Hok Hwf'].
  split; [exact Hok |]. split; [exact Hwf' |].
  pose proof (_start_select_screen_start event w) as Hst.
  destruct b; cbn [normal_button_down] in *;
    unfold normal_left_down, normal_right_down, bind, gets, ret in *;
    destruct (always_on (traits (self w)) || _enabled (self w));
    destruct (drag_button (traits (self w))); cbn [fst snd] in *;
    eauto.
Qed.

Lemma selecting_button_up_between_events (b : Button) (event : Event)
    (w : World Mapper) :
  between_events w ->
  event_state (self w) = StateSelecting ->
  fst (selecting_button_up b event w) = Ok tt /\
  between_events (snd (selecting_button_up b event w)).
Proof.
  intros [Hwf Hsel] Hstate.
  destruct (Hsel Hstate) as [start Hstart].
  destruct (_end_select_well_formed event w start Hwf Hstart)
    as (Hok & Hwf' & Hn).
  assert (Hend : between_events (snd (_end_select event w))).
  { split; [exact Hwf' |]. rewrite Hn. discriminate. }
  destruct b; cbn [selecting_button_up];
    unfold selecting_left_up, selecting_right_up, bind, gets, ret;
    destruct (drag_button (traits (self w))); cbn [fst snd];
    first [ split; [exact Hok | exact Hend]
          | split; [reflexivity | split; [exact Hwf | exact Hsel]] ].
Qed.

Lemma dispatch_between_events (kind : MouseEventKind) (event : Event)
    (w : World Mapper) :
  between_events w ->
  between_events (snd (dispatch kind event w)) /\
  returned_or_zero_division (self w) (fst (dispatch kind event w)).
Proof.
  intros Hw.
  enough (H : forall r w', dispatch kind event w = (r, w') ->
                           between_events w' /\
                           returned_or_zero_division (self w) r)
    by (destruct (dispatch kind event w) as [r w'] eqn:E; exact (H r w' eq_refl)).
  intros r w'.
  assert (Hw0 : between_events (set_handled false w)) by exact Hw.
  unfold dispatch. unfold bind at 1, modify at 1. cbv beta iota.
  unfold bind at 1, gets at 1. cbv beta iota.
  cbn [self set_handled].
  destruct (event_state (self w)) eqn:Hstate, kind; intros E;
    try (injection E as <- <-; split; [exact Hw0 | left; reflexivity]).
  - destruct (normal_button_down_between_events ButtonLeft event _ Hw0)
      as [Hok Hb].
    cbn [normal_button_down] in Hok, Hb. rewrite E in Hok, Hb.
    split; [exact Hb | left; exact Hok].
  - destruct (normal_button_down_between_events ButtonRight event _ Hw0)
      as [Hok Hb].
    cbn [normal_button_down] in Hok, Hb. rewrite E in Hok, Hb.
    split; [exact Hb | left; exact Hok].
  - destruct Hw0 as [Hwf Hsel].
    destruct (normal_mouse_wheel_well_formed event _ Hwf) as [Hwf' Hr].
    pose proof (normal_mouse_wheel_self event (set_handled false w)) as Hself.
    rewrite E in Hwf', Hr, Hself. cbn [fst snd] in Hwf', Hr, Hself.
    split; [| exact Hr]. split; [exact Hwf' |]. rewrite Hself. exact Hsel.
  - destruct (selecting_button_up_between_events ButtonLeft event _ Hw0 Hstate)
      as [Hok Hb].
    cbn [selecting_button_up] in Hok, Hb. rewrite E in Hok, Hb.
    split; [exact Hb | left; exact Hok].
  - destruct (selecting_button_up_between_events ButtonRight event _ Hw0 Hstate)
      as [Hok Hb].
    cbn [selecting_button_up] in Hok, Hb. rewrite E in Hok, Hb.
    split; [exact Hb | left; exact Hok].
  - destruct Hw0 as [Hwf Hsel].
    destruct (_end_selecting_same_history (Some event) (set_handled false w))
      as (Hok & Hsame & Hn).
    unfold selecting_mouse_leave in E. rewrite E in Hok, Hsame, Hn.
    cbn [fst snd] in Hok, Hsame, Hn.
    split; [| left; exact Hok]. split.
    + exact (same_history_well_formed _ _ Hsame Hwf).
    + rewrite Hn. discriminate.
Qed.

Lemma run_events_between_events (events : list (MouseEventKind * Event)) :
  forall w : World Mapper,
    between_events w ->
    between_events (snd (run_events events w)) /\
    returned_or_zero_division (self w) (fst (run_events events w)).
Proof.
  induction events as [| [kind event] rest IH]; intros w Hw.
  - split; [exact Hw | left; reflexivity].
  - cbn [run_events].
    destruct (dispatch_between_events kind event w Hw) as [Hw' Hr].
    pose proof (dispatch_traits kind event w) as Ht.
    unfold bind.
    destruct (dispatch kind event w) as [[[] | e] w'];
      cbn [fst snd] in Hw', Hr, Ht.
    + destruct (IH w' Hw') as [Hb Hr'].
      split; [exact Hb |].
      unfold returned_or_zero_division in *. rewrite <- Ht. exact Hr'.
    + split; [exact Hw' | exact Hr].
Qed.

(** What [__init__] establishes. *)
Lemma __init___between_events (c : Component Mapper) (kw : Traits)
    (me : ToolId) (win : Window) :
  between_events (__init__ c kw me win) /\
  traits (self (__init__ c kw me win)) = kw.
Proof.
  split; [split; [apply __init___well_formed |] |];
    unfold __init__, _reset_state_to_current, _reset_state; run;
    destruct (tool_mode kw); cbn; try discriminate; reflexivity.
Qed.

(** From construction on, no sequence of mouse events breaks the
    history, and on a tool whose zoom-in factor exists none makes a
    handler raise. *)
Lemma mouse_events_never_raise (c : Component Mapper) (kw : Traits)
    (me : ToolId) (win : Window) (events : list (MouseEventKind * Event)) :
  py_eq (1 + 0.5 * wheel_zoom_step kw)%float 0 = false ->
  fst (run_events events (__init__ c kw me win)) = Ok tt /\
  well_formed (snd (run_events events (__init__ c kw me win))).
Proof.
  intros Hz.
  destruct (__init___between_events c kw me win) as [H0 Ht].
  destruct (run_events_between_events events _ H0) as [[Hwf _] [Hok | [_ Hr]]].
  - split; assumption.
  - rewrite Ht in Hr. congruence.
Qed.

End ToolFacts.

(** *** The mouse wheel *)

Lemma is_limited_false (max_in max_out : option float) (ol oh nl nh : float) :
  is_limited (_zoom_limit_reached max_in max_out ol oh nl nh) = false ->
  _zoom_limit_reached max_in max_out ol oh nl nh = Ok false.
Proof.
  destruct (_zoom_limit_reached_total max_in max_out ol oh nl nh) as [b ->].
  destruct b; cbn; congruence.
Qed.

(** C8: for a wheel event with the wheel enabled and a nonzero delta,
    let [factor] be [1 / (1 + 0.5 * wheel_zoom_step)] for a positive
    delta and [1 + 0.5 * wheel_zoom_step] for a negative one, [cur] the
    data bounds of the component's screen box, [cursor] the data
    position of the event, and for an axis [new_low = cursor - factor *
    (cursor - cur_low)], [new_high = cursor + factor * (cur_high -
    cursor)]. In range mode, when the policy accepts the axis, the
    handler sets the bounds of the tool's mapper range to [(new_low,
    new_high)]; in box mode, when it accepts both axes, the bounds of
    the x and of the y range, and when it accepts x and rejects y, those
    of the x range alone. The one event for which the zoom-in factor
    does not exist, a positive delta on a tool whose [1 + 0.5 *
    wheel_zoom_step] is zero, raises the [ZeroDivisionError] of that
    division and accepts no bounds: the world is left as it was. In
    particular a zoom-in at the cursor value 50 over the visible
    interval (0, 100) with [wheel_zoom_step = 1.0] yields the bounds
    [50 - (2/3) * 50] and [50 + (2/3) * 50]. *)
Theorem wheel_zoom_bounds :
  (forall (Mapper : Type) (mapper_api : MapperAPI Mapper)
          (w : World Mapper) (event : Event)
          (orig : ZoomState) (h : list ZoomState),
     enable_wheel (traits (self w)) = true ->
     mouse_wheel event <> 0%Z ->
     _history (self w) = orig :: h ->
     let t := self w in
     let c := component w in
     let factor :=
       if (0 <? mouse_wheel event)%Z
       then (1 / (1 + 0.5 * wheel_zoom_step (traits t)))%float
       else (1 + 0.5 * wheel_zoom_step (traits t))%float in
     let divides_by_zero :=
       (0 <? mouse_wheel event)%Z
       && py_eq (1 + 0.5 * wheel_zoom_step (traits t))%float 0 in
     let cur := _map_coordinate_box c (c_x c, c_y c) (c_x2 c, c_y2 c) in
     let cursor :=
       (map_data (x_mapper c) (x event), map_data (y_mapper c) (y event)) in
     let new_low (ndx : nat) :=
       (item cursor ndx - factor * (item cursor ndx - item (fst cur) ndx))%float in
     let new_high (ndx : nat) :=
       (item cursor ndx + factor * (item (snd cur) ndx - item cursor ndx))%float in
     let limited (ndx : nat) :=
       axis_limited t (fst (wheel_orig orig ndx)) (snd (wheel_orig orig ndx))
         (new_low ndx) (new_high ndx) in
     (divides_by_zero = true ->
      normal_mouse_wheel event w = (Raise ZeroDivisionError, w)) /\
     (divides_by_zero = false ->
      wheel_zoom t event = Ok factor /\
      (tool_mode (traits t) = ModeRange ->
       limited (_determine_axis t c) = false ->
       normal_mouse_wheel event w =
         (Ok tt,
          update_component add_redraw_request
            (set_handled true
               (update_component
                  (update_mapper (_get_mapper t)
                     (range_set_bounds (new_low (_determine_axis t c))
                                       (new_high (_determine_axis t c))))
                  w))) /\
       get_mapper (_get_mapper t) (component (snd (normal_mouse_wheel event w))) =
         range_set_bounds (new_low (_determine_axis t c))
           (new_high (_determine_axis t c)) (get_mapper (_get_mapper t) c)) /\
      (tool_mode (traits t) = ModeBox ->
       limited 0%nat = false ->
       limited 1%nat = false ->
       normal_mouse_wheel event w =
         (Ok tt,
          update_component add_redraw_request
            (set_handled true
               (update_component
                  (fun c' =>
                     update_mapper (y_mapper_ref c)
                       (range_set_bounds (new_low 1%nat) (new_high 1%nat))
                       (update_mapper (x_mapper_ref c)
                          (range_set_bounds (new_low 0%nat) (new_high 0%nat)) c'))
                  w))) /\
       x_mapper (component (snd (normal_mouse_wheel event w))) =
         range_set_bounds (new_low 0%nat) (new_high 0%nat) (x_mapper c) /\
       y_mapper (component (snd (normal_mouse_wheel event w))) =
         range_set_bounds (new_low 1%nat) (new_high 1%nat) (y_mapper c)) /\
      (tool_mode (traits t) = ModeBox ->
       limited 0%nat = false ->
       limited 1%nat = true ->
       normal_mouse_wheel event w =
         (Ok tt,
          set_handled true
            (update_component
               (update_mapper (x_mapper_ref c)
                  (range_set_bounds (new_low 0%nat) (new_high 0%nat)))
               w)) /\
       x_mapper (component (snd (normal_mouse_wheel event w))) =
         range_set_bounds (new_low 0%nat) (new_high 0%nat) (x_mapper c) /\
       y_mapper (component (snd (normal_mouse_wheel event w))) = y_mapper c))) /\
  (let w := example_world range_traits None in
   let event := mkEvent 50 50 1 in
   let w' := snd (normal_mouse_wheel event w) in
   wheel_zoom_step (traits (self w)) = 1.0%float /\
   map_data (index_mapper (component w)) (c_x (component w)) = 0%float /\
   map_data (index_mapper (component w)) (c_x2 (component w)) = 100%float /\
   map_data (index_mapper (component w)) (x event) = 50%float /\
   wheel_zoom (self w) event = Ok (2 / 3)%float /\
   fst (normal_mouse_wheel event w) = Ok tt /\
   low (index_mapper (component w')) = (50 - (2 / 3) * 50)%float /\
   high (index_mapper (component w')) = (50 + (2 / 3) * 50)%float) /\
  (let w := example_world zero_factor_traits None in
   let event := mkEvent 50 50 1 in
   wheel_zoom_step (traits (self w)) = (-2.0)%float /\
   normal_mouse_wheel event w = (Raise ZeroDivisionError, w)).
Proof.
  split; [| split; vm_compute; repeat split].
  intros Mapper mapper_api w event orig h Hen Hwheel Hhist
    t c factor divides_by_zero cur cursor new_low new_high limited.
  assert (Erun : normal_mouse_wheel event w =
    match wheel_zoom t event with
    | Raise e => (Raise e, w)
    | Ok zoom =>
        wheel_loop zoom (fst cur) (snd cur) cursor orig (wheel_dataranges t c) w
    end).
  { rewrite normal_mouse_wheel_run.
    rewrite Hen. apply Z.eqb_neq in Hwheel. rewrite Hwheel. cbn [negb andb].
    cbv zeta. rewrite Hhist. reflexivity. }
  split.
  - intros Hdz. subst divides_by_zero.
    apply andb_true_iff in Hdz. destruct Hdz as [Hpos Hz].
    rewrite Erun. unfold wheel_zoom, py_div. fold t. rewrite Hpos, Hz.
    reflexivity.
  - intros Hdz.
    assert (Ez : wheel_zoom t event = Ok factor).
    { unfold wheel_zoom, py_div. subst divides_by_zero factor.
      destruct (0 <? mouse_wheel event)%Z; [| reflexivity].
      cbn [andb] in Hdz. rewrite Hdz. reflexivity. }
    split; [exact Ez |].
    rewrite Erun, Ez. unfold wheel_dataranges. subst limited.
    unfold axis_limited.
    split; [| split].
    + intros Hmode Hlim. fold t. rewrite Hmode. cbn [wheel_loop].
      unfold bind at 1. unfold limit_reached, bind, gets, lift.
      apply is_limited_false in Hlim. fold t.
      unfold wheel_newlow, wheel_newhigh.
      change (item cursor (_determine_axis t c) - factor
              * (item cursor (_determine_axis t c)
                 - item (fst cur) (_determine_axis t c)))%float
        with (new_low (_determine_axis t c)).
      change (item cursor (_determine_axis t c) + factor
              * (item (snd cur) (_determine_axis t c)
                 - item cursor (_determine_axis t c)))%float
        with (new_high (_determine_axis t c)).
      rewrite Hlim. split; [reflexivity |].
      unfold assign_range, request_redraw, modify.
      cbn [fst snd component update_component set_handled].
      rewrite get_mapper_add_redraw.
      apply (get_update_mapper (_get_mapper t)).
    + intros Hmode Hlim0 Hlim1. fold t. rewrite Hmode. cbn [wheel_loop].
      unfold bind at 1. unfold limit_reached, bind, gets, lift.
      apply is_limited_false in Hlim0. apply is_limited_false in Hlim1.
      fold t. unfold wheel_newlow, wheel_newhigh.
      change (item cursor 0 - factor * (item cursor 0 - item (fst cur) 0))%float
        with (new_low 0%nat).
      change (item cursor 0 + factor * (item (snd cur) 0 - item cursor 0))%float
        with (new_high 0%nat).
      rewrite Hlim0. cbn [self update_component assign_range modify fst snd].
      change (item cursor 1 - factor * (item cursor 1 - item (fst cur) 1))%float
        with (new_low 1%nat).
      change (item cursor 1 + factor * (item (snd cur) 1 - item cursor 1))%float
        with (new_high 1%nat).
      fold t. rewrite Hlim1. split; [reflexivity |].
      unfold assign_range, request_redraw, modify.
      cbn [fst snd component update_component set_handled].
      apply xy_update_redraw_read_back.
    + intros Hmode Hlim0 Hlim1. fold t. rewrite Hmode. cbn [wheel_loop].
      unfold bind at 1. unfold limit_reached, bind, gets, lift.
      apply is_limited_false in Hlim0. apply is_limited_true in Hlim1.
      fold t. unfold wheel_newlow, wheel_newhigh.
      change (item cursor 0 - factor * (item cursor 0 - item (fst cur) 0))%float
        with (new_low 0%nat).
      change (item cursor 0 + factor * (item (snd cur) 0 - item cursor 0))%float
        with (new_high 0%nat).
      rewrite Hlim0. cbn [self update_component assign_range modify fst snd].
      change (item cursor 1 - factor * (item cursor 1 - item (fst cur) 1))%float
        with (new_low 1%nat).
      change (item cursor 1 + factor * (item (snd cur) 1 - item cursor 1))%float
        with (new_high 1%nat).
      fold t. rewrite Hlim1. split; [reflexivity |].
      unfold assign_range, request_redraw, modify.
      cbn [fst snd component update_component set_handled].
      apply x_update_read_back.
Qed.

(** ** The tool on a concrete plot *)

(** A drag from x=20 to x=60 on the horizontal plot zooms the index
    range to (20, 60) and records it. *)
Example drag_zooms :
  let w' := drag (20, 0)%Z (60, 0)%Z (example_world always_on_range_traits None) in
  _history (self w') = [RangeState 0 100; RangeState 20 60] /\
  _history_index (self w') = 1%nat /\
  low (index_mapper (component w')) = 20%float /\
  high (index_mapper (component w')) = 60%float /\
  event_state (self w') = StateNormal.
Proof. vm_compute. repeat split. Qed.

(** With a maximum zoom-in factor of 2, a drag over (45, 55) is pushed,
    rejected and rolled back. *)
Example tight_drag_rejected :
  let w := update_self (set__enabled true)
             (example_world tight_range_traits None) in
  let w' := drag (45, 0)%Z (55, 0)%Z w in
  _history (self w') = [RangeState 0 100] /\
  _history_index (self w') = 0%nat /\
  low (index_mapper (component w')) = 0%float /\
  high (index_mapper (component w')) = 100%float.
Proof. vm_compute. repeat split. Qed.

(** A drag across 2^63 pixels: the int64 difference wraps to the least
    int64, whose absolute value is itself, so the distance is negative
    and the drag is discarded like a short one. *)
Example overflowing_drag_discarded :
  let from := (-4611686018427387904, 0)%Z in
  let to := (4611686018427387904, 0)%Z in
  let w' := drag from to (example_world always_on_range_traits None) in
  screen_delta from to = (-9223372036854775808)%Z /\
  _history (self w') = [RangeState 0 100] /\
  _history_index (self w') = 0%nat /\
  low (index_mapper (component w')) = 0%float /\
  high (index_mapper (component w')) = 100%float /\
  event_state (self w') = StateNormal.
Proof. vm_compute. repeat split. Qed.

(** C1: a left press in the normal state while another tool holds the
    component's active-tool slot, on an armed tool and on an always-on
    tool. The tool disarms itself and leaves the slot alone, yet the
    gesture starts: the tool enters the selecting state, records the
    start point and takes the mouse. *)
Theorem press_under_contention_starts_gesture :
  (let w := contention_world in
   let w' := snd (normal_button_down ButtonLeft (mkEvent 10 20 0) w) in
   (event_state (self w) = StateNormal /\
    always_on (traits (self w)) = false /\
    _enabled (self w) = true /\
    drag_button (traits (self w)) = ButtonLeft /\
    self_id w = 1%nat /\
    active_tool (component w) = Some 2%nat) /\
   (_enabled (self w') = false /\
    active_tool (component w') = Some 2%nat /\
    event_state (self w') = StateSelecting /\
    _screen_start (self w') = Some (10, 20)%Z /\
    mouse_owner (window w') = Some 1%nat)) /\
  (let w := example_world always_on_traits (Some 2%nat) in
   let w' := snd (normal_button_down ButtonLeft (mkEvent 10 20 0) w) in
   (event_state (self w) = StateNormal /\
    always_on (traits (self w)) = true /\
    self_id w = 1%nat /\
    active_tool (component w) = Some 2%nat) /\
   (_enabled (self w') = false /\
    active_tool (component w') = Some 2%nat /\
    event_state (self w') = StateSelecting /\
    _screen_start (self w') = Some (10, 20)%Z /\
    mouse_owner (window w') = Some 1%nat)).
Proof. vm_compute. repeat split. Qed.

Lemma short_drag_discarded_witness :
  let w := dragging_world in
  let event := mkEvent 12 23 0 in
  let w' := snd (selecting_button_up ButtonLeft event w) in
  fst (selecting_button_up ButtonLeft event w) = Ok tt /\
  _history (self w') = _history (self w) /\
  _history_index (self w') = _history_index (self w) /\
  index_mapper (component w') = index_mapper (component w) /\
  value_mapper (component w') = value_mapper (component w) /\
  event_state (self w') = StateNormal /\
  handled w' = true.
Proof.
  apply (short_drag_discarded dragging_world (mkEvent 12 23 0) (10, 20)%Z);
    [reflexivity | reflexivity | vm_compute; reflexivity].
Defined.

Lemma do_zoom_limited_rejects_witness :
  let w' := snd (_do_zoom pushed_world) in
  fst (_do_zoom pushed_world) = Ok tt /\
  w' = snd (_pop_state pushed_world) /\
  component w' = component pushed_world /\
  (S (_history_index (self pushed_world))
     = List.length (_history (self pushed_world)) ->
   _history (self w') = removelast (_history (self pushed_world)) /\
   _history_index (self w') = Nat.pred (_history_index (self pushed_world))).
Proof.
  apply (do_zoom_limited_rejects pushed_world);
    [vm_compute; discriminate | vm_compute; reflexivity].
Defined.

Lemma do_zoom_at_origin_restores_settings_witness :
  let w := frozen_world in
  let m := index_mapper (component w) in
  let m' := index_mapper (component (snd (_do_zoom w))) in
  (low_setting m = SettingFloat 20 /\ high_setting m = SettingFloat 60) /\
  fst (_do_zoom w) = Ok tt /\
  (low_setting m' = SettingStr "auto" /\ high_setting m' = SettingStr "auto") /\
  (low m' = 20%float /\ high m' = 60%float) /\
  value_mapper (component (snd (_do_zoom w))) = value_mapper (component w) /\
  redraw_requests (component (snd (_do_zoom w))) = 1%nat.
Proof.
  destruct (do_zoom_at_origin_restores_settings frozen_world
              (example_component None) 1%nat example_window)
    as (E & Hm & _ & Hr);
    [reflexivity | vm_compute; discriminate | reflexivity | reflexivity |].
  change (tool_mode (traits (self frozen_world))) with ModeRange in Hm.
  cbv zeta in Hm. destruct Hm as [Hm Ho].
  change (_get_mapper (self frozen_world)) with IndexMapper in Hm, Ho.
  cbn [get_mapper other_mapper] in Hm, Ho.
  cbv zeta. rewrite Hm, Ho, Hr, E.
  vm_compute. repeat split.
Defined.

Lemma wheel_zoom_bounds_witness :
  let w := example_world always_on_traits None in
  let w' := snd (normal_mouse_wheel (mkEvent 50 25 (-1)) w) in
  low (index_mapper (component w')) = (-25)%float /\
  high (index_mapper (component w')) = 125%float /\
  low (value_mapper (component w')) = (-12.5)%float /\
  high (value_mapper (component w')) = 137.5%float /\
  handled w' = true.
Proof.
  intros w w'. subst w'.
  destruct (proj1 wheel_zoom_bounds LinearMapper linear_mapper_api w
              (mkEvent 50 25 (-1)) (BoxState (0, 0) (100, 100))%float []
              eq_refl ltac:(discriminate) eq_refl) as [_ Hok].
  destruct (Hok eq_refl) as (_ & _ & Hbox & _).
  destruct (Hbox eq_refl eq_refl eq_refl) as [-> _].
  vm_compute. repeat split.
Defined.

(** * Further properties of the tool *)

(** ** Order and NaN on binary64 *)

Section FloatOrder.

Local Open Scope float_scope.

Lemma SFcompare_antisym (a b : spec_float) :
  SFcompare b a = option_map CompOpp (SFcompare a b).
Proof.
  destruct a as [sa | sa | | sa ma ea], b as [sb | sb | | sb mb eb]; cbn;
    try reflexivity; try (destruct sa; reflexivity);
    try (destruct sb; reflexivity);
    try (destruct sa, sb; reflexivity).
  destruct sa, sb; cbn; try reflexivity;
    rewrite (Z.compare_antisym ea eb);
    destruct (ea ?= eb)%Z; cbn; try reflexivity;
    rewrite (Pos.compare_cont_antisym ma mb Eq); reflexivity.
Qed.

(** [a > b] excludes [b > a]. *)
Lemma py_gt_asym (a b : float) : py_gt a b = true -> py_gt b a = false.
Proof.
  unfold py_gt. rewrite !ltb_spec. unfold SFltb.
  rewrite (SFcompare_antisym (Prim2SF b) (Prim2SF a)).
  destruct (SFcompare (Prim2SF b) (Prim2SF a)) as [[| |] |]; cbn;
    congruence.
Qed.

Lemma is_nan_spec (v : float) : is_nan v = true -> Prim2SF v = S754_nan.
Proof.
  unfold is_nan. rewrite FloatAxioms.eqb_spec. unfold SFeqb.
  destruct (Prim2SF v) as [s | s | | s m e]; cbn; try reflexivity.
  - discriminate.
  - destruct s; discriminate.
  - destruct s; rewrite Z.compare_refl, Pos.compare_cont_refl; discriminate.
Qed.

(** A NaN is neither [inf], nor a zero, nor within tolerance of zero,
    nor greater than anything, and so are the quotients it enters. *)
Lemma nan_not_inf (v : float) : is_nan v = true -> py_eq v inf = false.
Proof.
  intros H. unfold py_eq. rewrite FloatAxioms.eqb_spec, (is_nan_spec v H).
  reflexivity.
Qed.

Lemma nan_not_zero (v : float) : is_nan v = true -> py_eq v 0 = false.
Proof.
  intros H. unfold py_eq. rewrite FloatAxioms.eqb_spec, (is_nan_spec v H).
  reflexivity.
Qed.

Lemma nan_not_close (v : float) : is_nan v = true -> allclose v 0 = false.
Proof.
  intros H. unfold allclose.
  rewrite leb_spec, abs_spec, sub_spec, (is_nan_spec v H). reflexivity.
Qed.

Lemma nan_div_l (a b l : float) : is_nan a = true -> py_gt (a / b) l = false.
Proof.
  intros H. unfold py_gt.
  rewrite ltb_spec, div_spec, (is_nan_spec a H). unfold SFltb.
  destruct (Prim2SF l); reflexivity.
Qed.

Lemma nan_div_r (a b l : float) : is_nan b = true -> py_gt (a / b) l = false.
Proof.
  intros H. unfold py_gt.
  rewrite ltb_spec, div_spec, (is_nan_spec b H). unfold SFltb, SF64div, SFdiv.
  destruct (Prim2SF l), (Prim2SF a); reflexivity.
Qed.

End FloatOrder.

(** ** More on the zoom-limit policy *)

Section ZoomLimitEdges.

Local Open Scope float_scope.

(** X1: [_zoom_limit_reached] never raises: whatever the four bounds and
    the two limits, no division by a zero of either sign is reached,
    because the [allclose] tests answer first. *)
Theorem zoom_limit_never_raises (max_in max_out : option float)
    (ol oh nl nh : float) :
  _zoom_limit_reached max_in max_out ol oh nl nh = Ok true \/
  _zoom_limit_reached max_in max_out ol oh nl nh = Ok false.
Proof.
  destruct (_zoom_limit_reached_total max_in max_out ol oh nl nh) as [b ->].
  destruct b; [left | right]; reflexivity.
Qed.

(** X2: with numeric limits a NaN extent is never reported limited: when
    the original extent is NaN and the new one is not within tolerance
    of zero, or the new extent is NaN and the original one is not
    within tolerance of zero, [_zoom_limit_reached] returns false. *)
Theorem zoom_limit_nan_not_limited (max_in max_out ol oh nl nh : float) :
  (is_nan (oh - ol) = true /\ allclose (nh - nl) 0 = false) \/
  (is_nan (nh - nl) = true /\ allclose (oh - ol) 0 = false) ->
  _zoom_limit_reached (Some max_in) (Some max_out) ol oh nl nh = Ok false.
Proof.
  intros H.
  assert (Ho : allclose (oh - ol) 0 = false)
    by (destruct H as [[H _] | [_ H]]; [apply nan_not_close |]; exact H).
  assert (Hn : allclose (nh - nl) 0 = false)
    by (destruct H as [[_ H] | [H _]]; [| apply nan_not_close]; exact H).
  unfold _zoom_limit_reached.
  destruct (py_eq (oh - ol) inf); [reflexivity |].
  rewrite Ho, Hn, (py_div_ok _ _ Ho), (py_div_ok _ _ Hn). cbn [py_gt_limit].
  destruct H as [[H _] | [H _]].
  - rewrite (nan_div_r _ _ _ H), (nan_div_l _ _ _ H). reflexivity.
  - rewrite (nan_div_l _ _ _ H), (nan_div_r _ _ _ H). reflexivity.
Qed.

Lemma zoom_limit_nan_not_limited_witness :
  _zoom_limit_reached (Some 1e5) (Some 1e5) inf inf 20 60 = Ok false.
Proof.
  apply (zoom_limit_nan_not_limited 1e5 1e5 inf inf 20 60).
  left. split; reflexivity.
Defined.

End ZoomLimitEdges.

(** ** Screen boxes in data space *)

Section CoordinateBox.

Context {Mapper : Type} {mapper_api : MapperAPI Mapper}.

Lemma map_axis_ordered (mapper : Mapper) (a b : Z) :
  py_gt (fst (map_axis mapper a b)) (snd (map_axis mapper a b)) = false.
Proof.
  unfold map_axis.
  destruct (py_gt (map_data mapper a) (map_data mapper b)) eqn:E; cbn [fst snd].
  - apply py_gt_asym. exact E.
  - exact E.
Qed.

Lemma map_axis_swap (mapper : Mapper) (a b : Z) :
  py_gt (map_data mapper a) (map_data mapper b) = true \/
  py_gt (map_data mapper b) (map_data mapper a) = true \/
  map_data mapper a = map_data mapper b ->
  map_axis mapper b a = map_axis mapper a b.
Proof.
  unfold map_axis. intros [H | [H | H]].
  - rewrite H, (py_gt_asym _ _ H). reflexivity.
  - rewrite H, (py_gt_asym _ _ H). reflexivity.
  - rewrite H. destruct (py_gt _ _); reflexivity.
Qed.

(** X3: the box [_map_coordinate_box] returns is ordered on both axes,
    for every mapper and every pair of screen points: on neither axis
    is the low value greater than the high value. *)
Theorem map_coordinate_box_ordered (c : Component Mapper) (start end_ : Z * Z) :
  py_gt (fst (fst (_map_coordinate_box c start end_)))
        (fst (snd (_map_coordinate_box c start end_))) = false /\
  py_gt (snd (fst (_map_coordinate_box c start end_)))
        (snd (snd (_map_coordinate_box c start end_))) = false.
Proof.
  unfold _map_coordinate_box. cbn [fst snd]. split; apply map_axis_ordered.
Qed.

(** X4: the direction of a drag does not matter: when on each axis the
    two mapped values are ordered one way or the other, or are the same
    value, [_map_coordinate_box] yields the same box for (start, end)
    and for (end, start). *)
Theorem map_coordinate_box_symmetric (c : Component Mapper)
    (start end_ : Z * Z) :
  (py_gt (map_data (x_mapper c) (fst start)) (map_data (x_mapper c) (fst end_)) = true \/
   py_gt (map_data (x_mapper c) (fst end_)) (map_data (x_mapper c) (fst start)) = true \/
   map_data (x_mapper c) (fst start) = map_data (x_mapper c) (fst end_)) ->
  (py_gt (map_data (y_mapper c) (snd start)) (map_data (y_mapper c) (snd end_)) = true \/
   py_gt (map_data (y_mapper c) (snd end_)) (map_data (y_mapper c) (snd start)) = true \/
   map_data (y_mapper c) (snd start) = map_data (y_mapper c) (snd end_)) ->
  _map_coordinate_box c end_ start = _map_coordinate_box c start end_.
Proof.
  intros Hx Hy. unfold _map_coordinate_box. cbn [item].
  rewrite (map_axis_swap _ _ _ Hx), (map_axis_swap _ _ _ Hy). reflexivity.
Qed.

End CoordinateBox.

Lemma map_coordinate_box_symmetric_witness :
  _map_coordinate_box (example_component None) (60, 10)%Z (20, 80)%Z =
  _map_coordinate_box (example_component None) (20, 80)%Z (60, 10)%Z.
Proof.
  apply (map_coordinate_box_symmetric (example_component None)
           (20, 80)%Z (60, 10)%Z);
    [right; left; reflexivity | left; reflexivity].
Defined.

(** ** The mouse wheel, the apply step and a whole drag *)

Section ToolMore.

Context {Mapper : Type} {mapper_api : MapperAPI Mapper}.

Local Open Scope py_scope.

Ltac run :=
  unfold bind, gets, modify, ret, raise, lift, when; cbn.

(** A wheel event on a tool whose wheel is disabled, or with a zero
    delta, changes nothing at all: no bound, no redraw request, and the
    event is not marked handled. *)
Theorem wheel_off_is_noop (event : Event) (w : World Mapper) :
  enable_wheel (traits (self w)) = false \/ mouse_wheel event = 0%Z ->
  normal_mouse_wheel event w = (Ok tt, w).
Proof.
  intros H. unfold normal_mouse_wheel, bind, gets, ret.
  destruct H as [-> | ->]; [reflexivity |].
  rewrite andb_false_r. reflexivity.
Qed.

(** X5: for a wheel event whose zoom factor exists (a zoom-out, or a
    zoom-in on a tool whose [1 + 0.5 * wheel_zoom_step] is not zero),
    when the zoom-limit policy rejects the first axis of the wheel zoom
    (the one axis in range mode, x in box mode), the handler only marks
    the event handled: no range is touched and no redraw is
    requested. *)
Theorem wheel_limited_only_handles (event : Event) (w : World Mapper)
    (orig : ZoomState) (h : list ZoomState) (zoom : float) :
  enable_wheel (traits (self w)) = true ->
  mouse_wheel event <> 0%Z ->
  _history (self w) = orig :: h ->
  wheel_zoom (self w) event = Ok zoom ->
  let t := self w in
  let c := component w in
  let ndx :=
    match tool_mode (traits t) with
    | ModeRange => _determine_axis t c
    | ModeBox => 0%nat
    end in
  let cur := _map_coordinate_box c (c_x c, c_y c) (c_x2 c, c_y2 c) in
  let cursor :=
    (map_data (x_mapper c) (x event), map_data (y_mapper c) (y event)) in
  axis_limited t (fst (wheel_orig orig ndx)) (snd (wheel_orig orig ndx))
    (wheel_newlow zoom (item cursor ndx) (item (fst cur) ndx))
    (wheel_newhigh zoom (item cursor ndx) (item (snd cur) ndx))
    = true ->
  normal_mouse_wheel event w = (Ok tt, set_handled true w).
Proof.
  intros Hen Hwheel Hhist Hz. cbv zeta. intros Hlim.
  unfold axis_limited in Hlim. apply is_limited_true in Hlim.
  rewrite normal_mouse_wheel_run.
  rewrite Hen. apply Z.eqb_neq in Hwheel. rewrite Hwheel. cbn [negb andb].
  rewrite Hz. cbv zeta. rewrite Hhist. unfold wheel_dataranges.
  destruct (tool_mode (traits (self w))); cbn [wheel_loop];
    unfold bind at 1; rewrite limit_reached_world; cbv zeta;
    rewrite Hlim; reflexivity.
Qed.

(** On a well-formed history the verdict on the current entry is the
    verdict on the two entries. *)
Lemma candidate_limited_state (t : SimpleZoom) (orig cur : ZoomState)
    (h : list ZoomState) :
  _history t = orig :: h ->
  nth_error (_history t) (_history_index t) = Some cur ->
  state_shape (tool_mode (traits t)) orig = true ->
  state_shape (tool_mode (traits t)) cur = true ->
  candidate_limited t = state_limited t orig cur.
Proof.
  intros Hh Hc Ho Hs. unfold candidate_limited, state_limited.
  rewrite Hc, Hh.
  destruct (tool_mode (traits t)), orig, cur; try discriminate; reflexivity.
Qed.

Lemma axis_limited_false (t : SimpleZoom) (ol oh l h : float) :
  axis_limited t ol oh l h = false ->
  _zoom_limit_reached (max_zoom_in_factor (traits t))
    (max_zoom_out_factor (traits t)) ol oh l h = Ok false.
Proof. apply is_limited_false. Qed.

(** An accepted entry at a nonzero index: the bounds are assigned and a
    redraw is requested; the tool itself is untouched. *)
Lemma _do_zoom_accepted (w : World Mapper) (orig cur : ZoomState)
    (h : list ZoomState) :
  _history_index (self w) <> 0%nat ->
  _history (self w) = orig :: h ->
  nth_error (_history (self w)) (_history_index (self w)) = Some cur ->
  state_shape (tool_mode (traits (self w))) orig = true ->
  state_shape (tool_mode (traits (self w))) cur = true ->
  state_limited (self w) orig cur = false ->
  _do_zoom w =
    (Ok tt,
     update_component add_redraw_request
       (update_component (apply_bounds (self w) cur) w)).
Proof.
  intros Hidx Hh Hc Ho Hs Hlim.
  apply Nat.eqb_neq in Hidx.
  unfold _do_zoom, _current_state, history_first, limit_reached. run.
  rewrite Hc. cbn. rewrite Hh. cbn. rewrite Hidx.
  unfold state_limited in Hlim.
  destruct (tool_mode (traits (self w))), orig as [ol oh | ol oh],
    cur as [l h' | l h']; try discriminate; cbn; cbn [item] in Hlim.
  - apply orb_false_iff in Hlim. destruct Hlim as [H0 H1].
    rewrite (axis_limited_false _ _ _ _ _ H0). cbn.
    rewrite (axis_limited_false _ _ _ _ _ H1). reflexivity.
  - rewrite (axis_limited_false _ _ _ _ _ Hlim). reflexivity.
Qed.

(** X7: when [_do_zoom] runs at a history index greater than 0 on a
    well-formed tool and the zoom-limit policy accepts the entry at
    that index, it returns normally, assigns the entry to the mapper
    bounds ([low] then [high] of the tool's range in range mode; x low,
    y low, x high, y high in box mode) and requests one redraw. Read
    back from the component afterwards, the tool's mapper is the one
    that was there with [low] and then [high] assigned the entry's
    bounds, the other mapper being as it was (in box mode the x mapper
    has the x bounds and the y mapper the y bounds); the history, the
    index and the rest of the tool are untouched. *)
Theorem do_zoom_accepted_sets_bounds (w : World Mapper) (orig cur : ZoomState)
    (h : list ZoomState) :
  well_formed w ->
  _history_index (self w) <> 0%nat ->
  _history (self w) = orig :: h ->
  nth_error (_history (self w)) (_history_index (self w)) = Some cur ->
  state_limited (self w) orig cur = false ->
  let c := component w in
  let c' := component (snd (_do_zoom w)) in
  _do_zoom w =
    (Ok tt,
     update_component add_redraw_request
       (update_component (apply_bounds (self w) cur) w)) /\
  match cur with
  | RangeState low high =>
      let r := _get_mapper (self w) in
      get_mapper r c' = set_range_high high (set_range_low low (get_mapper r c)) /\
      get_mapper (other_mapper r) c' = get_mapper (other_mapper r) c
  | BoxState low high =>
      x_mapper c' = set_range_high (fst high) (set_range_low (fst low) (x_mapper c)) /\
      y_mapper c' = set_range_high (snd high) (set_range_low (snd low) (y_mapper c))
  end /\
  self (snd (_do_zoom w)) = self w /\
  redraw_requests c' = S (redraw_requests c).
Proof.
  intros (_ & Hshape & _) Hidx Hh Hc Hlim c c'.
  rewrite Forall_forall in Hshape.
  assert (E : _do_zoom w =
              (Ok tt,
               update_component add_redraw_request
                 (update_component (apply_bounds (self w) cur) w))).
  { apply (_do_zoom_accepted w orig cur h); auto.
    - apply Hshape. rewrite Hh. left. reflexivity.
    - apply Hshape. eapply nth_error_In. exact Hc. }
  split; [exact E |].
  subst c'. rewrite E. cbn [snd component update_component self].
  split; [| split; [reflexivity |]].
  - destruct cur as [low high | low high]; cbn [apply_bounds].
    + apply twice_update_redraw_read_back.
    + apply xyxy_update_redraw_read_back.
  - cbn [redraw_requests add_redraw_request]. f_equal.
    destruct cur; cbn [apply_bounds];
      rewrite !redraw_requests_update_mapper; reflexivity.
Qed.

End ToolMore.

Lemma wheel_off_is_noop_witness :
  normal_mouse_wheel (mkEvent 50 50 0) (example_world range_traits None) =
  (Ok tt, example_world range_traits None).
Proof.
  apply (wheel_off_is_noop (mkEvent 50 50 0) (example_world range_traits None)).
  right. reflexivity.
Defined.

Lemma wheel_limited_only_handles_witness :
  normal_mouse_wheel (mkEvent 50 50 (-1)) (example_world no_zoom_out_traits None) =
  (Ok tt, set_handled true (example_world no_zoom_out_traits None)).
Proof.
  apply (wheel_limited_only_handles (mkEvent 50 50 (-1))
           (example_world no_zoom_out_traits None) (RangeState 0 100) []
           1.5%float);
    [reflexivity | discriminate | reflexivity | reflexivity
    | vm_compute; reflexivity].
Defined.

Lemma do_zoom_accepted_sets_bounds_witness :
  let w := stepped_back_world in
  let m := index_mapper (component w) in
  let m' := index_mapper (component (snd (_do_zoom w))) in
  (low m = 32%float /\ high m = 40%float) /\
  fst (_do_zoom w) = Ok tt /\
  (low m' = 20%float /\ high m' = 60%float) /\
  value_mapper (component (snd (_do_zoom w))) = value_mapper (component w) /\
  _history (self (snd (_do_zoom w)))
    = [RangeState 0 100; RangeState 20 60; RangeState 32 40] /\
  _history_index (self (snd (_do_zoom w))) = 1%nat.
Proof.
  destruct (do_zoom_accepted_sets_bounds stepped_back_world
              (RangeState 0 100) (RangeState 20 60)
              [RangeState 20 60; RangeState 32 40])
    as (E & _).
  - vm_compute. repeat split; try lia; repeat constructor.
  - vm_compute. discriminate.
  - vm_compute. reflexivity.
  - vm_compute. reflexivity.
  - vm_compute. reflexivity.
  - cbv zeta. rewrite E. vm_compute. repeat split.
Defined.

(** ** Ending a selection *)

Section Gestures.

Context {Mapper : Type} {mapper_api : MapperAPI Mapper}.

Local Open Scope py_scope.

Ltac run :=
  unfold bind, gets, modify, ret, raise, lift, when; cbn.

(** Everything [_end_selecting] does. *)
Lemma _end_selecting_effect (event : option Event) (w : World Mapper) :
  let w' := snd (_end_selecting event w) in
  let doc := disable_on_complete (traits (self w)) in
  fst (_end_selecting event w) = Ok tt /\
  same_history w w' /\
  event_state (self w') = StateNormal /\
  _screen_start (self w') = None /\
  _screen_end (self w') = None /\
  _enabled (self w') = (if doc then false else _enabled (self w)) /\
  active_tool (component w') =
    (if doc && is_tool (active_tool (component w)) (self_id w)
     then None else active_tool (component w)) /\
  index_mapper (component w') = index_mapper (component w) /\
  value_mapper (component w') = value_mapper (component w) /\
  redraw_requests (component w') = S (redraw_requests (component w)) /\
  mouse_owner (window w') =
    match event with
    | Some _ =>
        if is_tool (mouse_owner (window w)) (self_id w)
        then None else mouse_owner (window w)
    | None => mouse_owner (window w)
    end /\
  self_id w' = self_id w /\
  handled w' = handled w.
Proof.
  unfold same_history, _end_selecting, disable, reset. run.
  destruct (disable_on_complete (traits (self w))), event; cbn;
    repeat match goal with
           | |- context [is_tool ?s ?m] => destruct (is_tool s m); cbn
           end;
    repeat split.
Qed.

(** It leaves the mappers where they are, whichever way they are
    looked up. *)
Lemma _end_selecting_mappers (event : option Event) (w : World Mapper) :
  let c := component w in
  let c' := component (snd (_end_selecting event w)) in
  (forall r, get_mapper r c' = get_mapper r c) /\
  x_mapper c' = x_mapper c /\
  y_mapper c' = y_mapper c.
Proof.
  unfold _end_selecting, disable, reset, x_mapper, y_mapper,
    x_mapper_ref, y_mapper_ref. run.
  destruct (disable_on_complete (traits (self w))), event; cbn;
    repeat match goal with
           | |- context [is_tool ?s ?m] => destruct (is_tool s m); cbn
           end;
    (split; [intros []; reflexivity | split; reflexivity]).
Qed.

(** X8: the mouse leaving the plot during a selection aborts it without
    zooming: the handler returns normally, the history, its index and
    both mappers are as they were, the tool is back in the normal state
    with no start or end point, the mouse is released if the tool owned
    it (and left to its owner otherwise), and the event is not marked
    handled. *)
Theorem mouse_leave_aborts_selection (event : Event) (w : World Mapper) :
  let w' := snd (selecting_mouse_leave event w) in
  fst (selecting_mouse_leave event w) = Ok tt /\
  _history (self w') = _history (self w) /\
  _history_index (self w') = _history_index (self w) /\
  index_mapper (component w') = index_mapper (component w) /\
  value_mapper (component w') = value_mapper (component w) /\
  event_state (self w') = StateNormal /\
  _screen_start (self w') = None /\
  _screen_end (self w') = None /\
  mouse_owner (window w') =
    (if is_tool (mouse_owner (window w)) (self_id w)
     then None else mouse_owner (window w)) /\
  handled w' = handled w.
Proof.
  unfold selecting_mouse_leave.
  destruct (_end_selecting_effect (Some event) w)
    as (Hok & (_ & Hh & Hi & _) & Hn & Hs & He & _ & _ & Hx & Hv & _ & Hm & _ & Hd).
  cbv zeta. repeat split; assumption.
Qed.

(** X9: a press on a free (or own) active-tool slot followed by the end
    of the selection gives back what the press took: the mouse is
    released, and with [disable_on_complete] the slot is empty again and
    the tool disarmed, while without it the tool keeps the slot and its
    armed flag. *)
Theorem press_then_end_releases (press release : Event) (w : World Mapper) :
  none_or_tool (active_tool (component w)) (self_id w) = true ->
  let w1 := snd (_start_select press w) in
  let w2 := snd (_end_selecting (Some release) w1) in
  (mouse_owner (window w1) = Some (self_id w) /\
   active_tool (component w1) = Some (self_id w) /\
   event_state (self w1) = StateSelecting) /\
  (mouse_owner (window w2) = None /\
   event_state (self w2) = StateNormal /\
   active_tool (component w2) =
     (if disable_on_complete (traits (self w)) then None else Some (self_id w)) /\
   _enabled (self w2) =
     (if disable_on_complete (traits (self w)) then false else _enabled (self w))).
Proof.
  intros Hfree.
  unfold _end_selecting, disable, reset, _start_select, selecting_mouse_move.
  run. rewrite Hfree. cbn.
  destruct (disable_on_complete (traits (self w))); cbn;
    unfold is_tool; cbn; repeat (rewrite Nat.eqb_refl; cbn); repeat split.
Qed.

End Gestures.

Lemma press_then_end_releases_witness :
  let w := example_world sticky_traits None in
  let w1 := snd (_start_select (mkEvent 10 20 0) w) in
  let w2 := snd (_end_selecting (Some (mkEvent 12 23 0)) w1) in
  (mouse_owner (window w1) = Some (self_id w) /\
   active_tool (component w1) = Some (self_id w) /\
   event_state (self w1) = StateSelecting) /\
  (mouse_owner (window w2) = None /\
   event_state (self w2) = StateNormal /\
   active_tool (component w2) =
     (if disable_on_complete (traits (self w)) then None else Some (self_id w)) /\
   _enabled (self w2) =
     (if disable_on_complete (traits (self w)) then false else _enabled (self w))).
Proof.
  apply (press_then_end_releases (mkEvent 10 20 0) (mkEvent 12 23 0)
           (example_world sticky_traits None)).
  reflexivity.
Defined.

(** ** An accepted drag *)

Section AcceptedDrag.

Context {Mapper : Type} {mapper_api : MapperAPI Mapper}.

Local Open Scope py_scope.

Lemma drag_candidate_shape (t : SimpleZoom) (c : Component Mapper)
    (start end_ : Z * Z) :
  state_shape (tool_mode (traits t)) (drag_candidate t c start end_) = true.
Proof.
  unfold drag_candidate. destruct (tool_mode (traits t)); [reflexivity |].
  cbv zeta. destruct (py_gt _ _); reflexivity.
Qed.

Lemma nth_error_pushed {A : Type} (l : list A) (n : nat) (a : A) :
  n < List.length l ->
  nth_error (firstn (S n) l ++ [a]) (S n) = Some a.
Proof.
  intros H.
  assert (E : List.length (firstn (S n) l) = S n)
    by (rewrite length_firstn; lia).
  rewrite nth_error_app2 by lia. rewrite E, Nat.sub_diag. reflexivity.
Qed.

(** The world [_end_select] leaves after a drag at or above the
    threshold whose candidate the policy accepts. *)
Lemma _end_select_accepted (w : World Mapper) (event : Event)
    (start : Z * Z) (orig : ZoomState) (h : list ZoomState) :
  well_formed w ->
  _screen_start (self w) = Some start ->
  (minimum_screen_delta (traits (self w))
     <= screen_delta start (x event, y event))%Z ->
  _history (self w) = orig :: h ->
  state_limited (self w) orig
    (drag_candidate (self w) (component w) start (x event, y event)) = false ->
  _end_select event w =
    (Ok tt,
     set_handled true
       (snd (_end_selecting (Some event)
          (update_component add_redraw_request
             (update_component
                (apply_bounds (self w)
                   (drag_candidate (self w) (component w) start (x event, y event)))
                (snd (_append_state
                        (drag_candidate (self w) (component w) start
                           (x event, y event))
                        (update_self
                           (set__screen_end (Some (x event, y event))) w)))))))).
Proof.
  intros Hwf Hstart Hdelta Hh Hlim.
  set (cand := drag_candidate (self w) (component w) start (x event, y event))
    in *.
  set (w1 := update_self (set__screen_end (Some (x event, y event))) w).
  assert (Hwf1 : well_formed w1) by exact Hwf.
  unfold _end_select.
  unfold bind at 1, modify at 1. cbv beta iota.
  unfold bind at 1, gets at 1. cbv beta iota.
  cbn [self update_self _screen_start set__screen_end traits]. rewrite Hstart.
  fold w1.
  apply Z.ltb_ge in Hdelta. rewrite Hdelta.
  unfold bind at 1, gets at 1. cbv beta iota.
  match goal with
  | |- context [bind ?m _ w1] =>
      assert (Hpush : m w1 = (Ok tt, snd (_append_state cand w1)))
  end.
  { subst cand. unfold drag_candidate.
    destruct (tool_mode (traits (self w))); [reflexivity |].
    cbv zeta. destruct (py_gt _ _); reflexivity. }
  rewrite (bind_run _ _ w1 _ tt Hpush).
  set (w2 := snd (_append_state cand w1)) in *.
  destruct Hwf as (Hidx & Hshape & _).
  assert (Hi2 : _history_index (self w2) = S (_history_index (self w))).
  { subst w2 w1. unfold _append_state, modify, update_self.
    cbn [snd self set__history _history _history_index set__screen_end].
    rewrite length_app, length_firstn. cbn [List.length]. lia. }
  assert (Hh2 : _history (self w2)
                = orig :: (firstn (_history_index (self w)) h ++ [cand])).
  { subst w2 w1. unfold _append_state, modify, update_self.
    cbn [snd self set__history _history _history_index set__screen_end].
    rewrite Hh. reflexivity. }
  assert (Hz : _do_zoom w2 =
               (Ok tt,
                update_component add_redraw_request
                  (update_component (apply_bounds (self w2) cand) w2))).
  { apply (_do_zoom_accepted w2 orig cand
             (firstn (_history_index (self w)) h ++ [cand])).
    - rewrite Hi2. discriminate.
    - exact Hh2.
    - rewrite Hi2, Hh2.
      change (orig :: firstn (_history_index (self w)) h ++ [cand])
        with (firstn (S (_history_index (self w))) (orig :: h) ++ [cand]).
      apply nth_error_pushed. rewrite <- Hh. exact Hidx.
    - rewrite Forall_forall in Hshape. apply Hshape. rewrite Hh. left.
      reflexivity.
    - apply (drag_candidate_shape (self w)).
    - exact Hlim. }
  rewrite (bind_run _ _ w2 _ tt Hz).
  destruct (_end_selecting_effect (Some event)
              (update_component add_redraw_request
                 (update_component (apply_bounds (self w2) cand) w2)))
    as (Hok & _).
  destruct (_end_selecting (Some event) _) as [r w4] eqn:E4.
  cbn [fst] in Hok. subst r.
  rewrite (bind_run _ _ _ _ tt E4). reflexivity.
Qed.

(** X10: a drag whose screen distance, computed as the code computes
    it (in int64; below 2^63 it is the Manhattan distance), is at or
    above [minimum_screen_delta] and whose candidate the zoom-limit
    policy accepts: [_end_select] returns normally, the candidate (the
    mapped end points, low first) is the one new history entry, put
    right after the current one, and the index moves onto it; read
    back from the component, the tool's mapper is the one that was
    there with [low] and then [high] assigned the candidate's bounds
    and the other mapper is as it was (in box mode the x mapper has the
    x bounds and the y mapper the y bounds); the tool is back in the
    normal state and the event is marked handled. *)
Theorem accepted_drag_zooms (w : World Mapper) (event : Event)
    (start : Z * Z) (orig : ZoomState) (h : list ZoomState) :
  well_formed w ->
  _screen_start (self w) = Some start ->
  (minimum_screen_delta (traits (self w))
     <= screen_delta start (x event, y event))%Z ->
  _history (self w) = orig :: h ->
  let cand := drag_candidate (self w) (component w) start (x event, y event) in
  state_limited (self w) orig cand = false ->
  let w' := snd (_end_select event w) in
  let c := component w in
  let c' := component w' in
  fst (_end_select event w) = Ok tt /\
  _history (self w')
    = firstn (S (_history_index (self w))) (_history (self w)) ++ [cand] /\
  _history_index (self w') = S (_history_index (self w)) /\
  match cand with
  | RangeState low high =>
      let r := _get_mapper (self w) in
      get_mapper r c' = set_range_high high (set_range_low low (get_mapper r c)) /\
      get_mapper (other_mapper r) c' = get_mapper (other_mapper r) c
  | BoxState low high =>
      x_mapper c' = set_range_high (fst high) (set_range_low (fst low) (x_mapper c)) /\
      y_mapper c' = set_range_high (snd high) (set_range_low (snd low) (y_mapper c))
  end /\
  event_state (self w') = StateNormal /\
  handled w' = true.
Proof.
  intros Hwf Hstart Hdelta Hh cand Hlim w' c c'. subst w' c'.
  rewrite (_end_select_accepted w event start orig h Hwf Hstart Hdelta Hh Hlim).
  fold cand. cbn [fst snd].
  match goal with
  | |- context [_end_selecting (Some event) ?w3] =>
      destruct (_end_selecting_effect (Some event) w3)
        as (_ & (_ & Hh3 & Hi3 & _) & Hn & _);
      destruct (_end_selecting_mappers (Some event) w3) as (Hg & Hx & Hy)
  end.
  destruct Hwf as (Hidx & _).
  repeat split.
  - cbn [self set_handled]. rewrite Hh3. reflexivity.
  - cbn [self set_handled]. rewrite Hi3.
    unfold _append_state, modify, update_self.
    cbn [snd self set__history _history _history_index set__screen_end
         update_component].
    rewrite length_app, length_firstn. cbn [List.length]. lia.
  - cbn [component set_handled]. cbn [component update_component] in Hg, Hx, Hy.
    destruct cand as [low high | low high]; cbn [apply_bounds] in *.
    + rewrite !Hg.
      apply (twice_update_redraw_read_back (_get_mapper (self w))).
    + rewrite Hx, Hy. apply xyxy_update_redraw_read_back.
  - exact Hn.
Qed.

End AcceptedDrag.

Lemma accepted_drag_zooms_witness :
  let w := range_dragging_world in
  let event := mkEvent 60 0 0 in
  let w' := snd (_end_select event w) in
  (_screen_start (self w) = Some (20, 0)%Z /\
   screen_delta (20, 0)%Z (60, 0)%Z = 40%Z /\
   _history (self w) = [RangeState 0 100] /\
   low (index_mapper (component w)) = 0%float /\
   high (index_mapper (component w)) = 100%float) /\
  fst (_end_select event w) = Ok tt /\
  _history (self w') = [RangeState 0 100; RangeState 20 60] /\
  _history_index (self w') = 1%nat /\
  (low (index_mapper (component w')) = 20%float /\
   high (index_mapper (component w')) = 60%float) /\
  value_mapper (component w') = value_mapper (component w) /\
  event_state (self w') = StateNormal /\
  handled w' = true.
Proof.
  destruct (accepted_drag_zooms range_dragging_world (mkEvent 60 0 0) (20, 0)%Z
              (RangeState 0 100) [])
    as (Hok & Hh & Hi & Hm & Hn & Hd).
  - vm_compute. repeat split; try lia; repeat constructor.
  - vm_compute. reflexivity.
  - vm_compute. discriminate.
  - vm_compute. reflexivity.
  - vm_compute. reflexivity.
  - change (drag_candidate (self range_dragging_world)
              (component range_dragging_world) (20, 0)%Z
              (x (mkEvent 60 0 0), y (mkEvent 60 0 0)))
      with (RangeState 20 60) in Hh, Hm.
    cbv zeta in Hm. destruct Hm as [Hm Ho].
    change (_get_mapper (self range_dragging_world)) with IndexMapper in Hm, Ho.
    cbn [get_mapper other_mapper] in Hm, Ho.
    cbv zeta. rewrite Hok, Hh, Hi, Hm, Ho, Hn, Hd.
    vm_compute. repeat split.
Defined.

(** ** Keys, enabling and disabling *)

Section Keys.

Context {Mapper : Type} {mapper_api : MapperAPI Mapper}.
Context {Key KeySpec : Type}.

Variable key_match : KeySpec -> Key -> bool.
Variable _history_handle_key : Event -> Key -> M Mapper unit.
Variable keys : KeyBindings KeySpec.

Local Open Scope py_scope.

Ltac run :=
  unfold bind, gets, modify, ret, raise, lift, when; cbn.

(** X11: a key pressed during a selection. The cancel key aborts the
    selection without zooming (history, index and mappers as they were,
    the tool back in the normal state with no start or end point) and
    marks the event handled; any other key changes nothing. *)
Theorem selecting_key_cancels (event : Event) (key : Key) (w : World Mapper) :
  let w' := snd (selecting_key_pressed key_match keys event key w) in
  fst (selecting_key_pressed key_match keys event key w) = Ok tt /\
  (key_match (cancel_zoom_key keys) key = true ->
   _history (self w') = _history (self w) /\
   _history_index (self w') = _history_index (self w) /\
   index_mapper (component w') = index_mapper (component w) /\
   value_mapper (component w') = value_mapper (component w) /\
   event_state (self w') = StateNormal /\
   _screen_start (self w') = None /\
   _screen_end (self w') = None /\
   handled w' = true) /\
  (key_match (cancel_zoom_key keys) key = false -> w' = w).
Proof.
  unfold selecting_key_pressed.
  destruct (key_match (cancel_zoom_key keys) key).
  - destruct (_end_selecting_effect (Some event) w)
      as (Hok & (_ & Hh & Hi & _) & Hn & Hs & He & _ & _ & Hx & Hv & _).
    unfold bind, modify.
    destruct (_end_selecting (Some event) w) as [r w2].
    cbn [fst snd] in *. subst r. cbn [fst snd set_handled self component handled].
    repeat split; try assumption. discriminate.
  - cbn. repeat split; try discriminate.
Qed.

(** X12: the enter-zoom key on a tool that is neither always on nor
    armed. If the active-tool slot is free or the tool's own, the tool
    takes it, is armed and shows its pointer; if another tool holds it,
    the slot, the window and the armed flag stay as they are. In both
    cases the history handler is not run and the event is not marked
    handled. *)
Theorem enter_key_arms_unless_contended (event : Event) (key : Key)
    (w : World Mapper) :
  always_on (traits (self w)) = false ->
  _enabled (self w) = false ->
  key_match (enter_zoom_key keys) key = true ->
  normal_key_pressed key_match _history_handle_key keys event key w =
    (Ok tt,
     if none_or_tool (active_tool (component w)) (self_id w) then
       update_window
         (fun wi => mkWindow (pointer (traits (self w))) (mouse_owner wi))
         (update_self (set__enabled true)
            (update_component (set_active_tool (Some (self_id w))) w))
     else update_self (set__enabled false) w).
Proof.
  intros Hao Hen Hkey. unfold normal_key_pressed. run.
  rewrite Hao, Hen, Hkey. cbn.
  destruct (none_or_tool (active_tool (component w)) (self_id w)); reflexivity.
Qed.

(** X13: entering and leaving zoom mode by key. On a tool that is not
    always on, not armed, with the slot free or its own, a key matching
    both the enter and the exit binding (they are the same key by
    default) arms the tool on the first press and disarms it on the
    second, which also restores the arrow pointer; the tool still holds
    the active-tool slot afterwards. *)
Theorem enter_then_exit_keeps_slot (event1 event2 : Event) (key : Key)
    (w : World Mapper) :
  always_on (traits (self w)) = false ->
  _enabled (self w) = false ->
  none_or_tool (active_tool (component w)) (self_id w) = true ->
  key_match (enter_zoom_key keys) key = true ->
  key_match (exit_zoom_key keys) key = true ->
  let w1 := snd (normal_key_pressed key_match _history_handle_key keys event1 key w) in
  let w2 := snd (normal_key_pressed key_match _history_handle_key keys event2 key w1) in
  (_enabled (self w1) = true /\
   active_tool (component w1) = Some (self_id w) /\
   window_pointer (window w1) = pointer (traits (self w))) /\
  (_enabled (self w2) = false /\
   active_tool (component w2) = Some (self_id w) /\
   window_pointer (window w2) = "arrow"%string /\
   _history (self w2) = _history (self w) /\
   index_mapper (component w2) = index_mapper (component w) /\
   value_mapper (component w2) = value_mapper (component w)).
Proof.
  intros Hao Hen Hfree Henter Hexit.
  unfold normal_key_pressed. run.
  rewrite Hao, Hen, Henter. cbn. rewrite Hfree. cbn.
  rewrite Hao, Hexit. cbn. repeat split.
Qed.

(** X14: [enable] takes the active-tool slot whoever holds it, and arms
    the tool; [disable] after it leaves the slot empty, the tool
    disarmed and in the normal state with no start or end point. *)
Theorem enable_takes_slot_disable_frees_it (e1 e2 : option Event)
    (w : World Mapper) :
  let w1 := snd (enable e1 w) in
  let w2 := snd (disable e2 w1) in
  (fst (enable e1 w) = Ok tt /\
   active_tool (component w1) = Some (self_id w) /\
   _enabled (self w1) = true) /\
  (fst (disable e2 w1) = Ok tt /\
   active_tool (component w2) = None /\
   _enabled (self w2) = false /\
   event_state (self w2) = StateNormal /\
   _screen_start (self w2) = None /\
   _screen_end (self w2) = None).
Proof.
  unfold enable, disable, reset. run.
  destruct (is_tool (active_tool (component w)) (self_id w)) eqn:E, e1, e2;
    cbn; rewrite ?E; cbn;
    unfold is_tool in *; cbn; rewrite ?Nat.eqb_refl; cbn;
    try (destruct (active_tool (component w)) as [o |]; [| discriminate];
         apply Nat.eqb_eq in E; subst o);
    cbn; rewrite ?Nat.eqb_refl; cbn; repeat split.
Qed.

(** X15: [disable] never takes the active-tool slot from another tool,
    and disabling twice is disabling once. *)
Theorem disable_spares_other_tools (e : option Event) (w : World Mapper) :
  (is_tool (active_tool (component w)) (self_id w) = false ->
   active_tool (component (snd (disable e w))) = active_tool (component w)) /\
  snd (disable e (snd (disable e w))) = snd (disable e w).
Proof.
  unfold disable, reset. run.
  destruct (is_tool (active_tool (component w)) (self_id w)) eqn:E, e;
    cbn; rewrite ?E; cbn; split; try reflexivity; try discriminate.
Qed.

End Keys.

Lemma enter_key_arms_unless_contended_witness :
  normal_key_pressed String.eqb (fun _ _ => ret tt) default_keys
    (mkEvent 0 0 0) "z"%string (example_world default_traits (Some 2%nat)) =
  (Ok tt, update_self (set__enabled false) (example_world default_traits (Some 2%nat))).
Proof.
  apply (enter_key_arms_unless_contended String.eqb (fun _ _ => ret tt)
           default_keys (mkEvent 0 0 0) "z"%string
           (example_world default_traits (Some 2%nat)));
    reflexivity.
Defined.

Lemma enter_then_exit_keeps_slot_witness :
  let w := example_world default_traits None in
  let press := normal_key_pressed String.eqb (fun _ _ => ret tt) default_keys
                 (mkEvent 0 0 0) "z"%string in
  let w1 := snd (press w) in
  let w2 := snd (press w1) in
  (_enabled (self w1) = true /\
   active_tool (component w1) = Some (self_id w) /\
   window_pointer (window w1) = pointer (traits (self w))) /\
  (_enabled (self w2) = false /\
   active_tool (component w2) = Some (self_id w) /\
   window_pointer (window w2) = "arrow"%string /\
   _history (self w2) = _history (self w) /\
   index_mapper (component w2) = index_mapper (component w) /\
   value_mapper (component w2) = value_mapper (component w)).
Proof.
  apply (enter_then_exit_keeps_slot String.eqb (fun _ _ => ret tt) default_keys
           (mkEvent 0 0 0) (mkEvent 0 0 0) "z"%string
           (example_world default_traits None));
    reflexivity.
Defined.

(** ** Resetting the history *)

Section Reset.

Context {Mapper : Type} {mapper_api : MapperAPI Mapper}.

Local Open Scope py_scope.

(** X16: the reset callback, run with the index at 0 on a well-formed
    tool, returns normally and leaves a history of exactly one entry at
    index 0: the bounds the mapper ranges show once the original
    settings have been assigned back. Every other entry is gone. *)
Theorem reset_pressed_recaptures (w : World Mapper) :
  well_formed w ->
  _history_index (self w) = 0%nat ->
  let w' := snd (_reset_state_pressed w) in
  let c' := component w' in
  fst (_reset_state_pressed w) = Ok tt /\
  _history_index (self w') = 0%nat /\
  _history (self w') =
    [match tool_mode (traits (self w)) with
     | ModeRange =>
         RangeState (range_low (get_mapper (_get_mapper (self w)) c'))
                    (range_high (get_mapper (_get_mapper (self w)) c'))
     | ModeBox =>
         BoxState (range_low (x_mapper c'), range_low (y_mapper c'))
                  (range_high (x_mapper c'), range_high (y_mapper c'))
     end] /\
  component w' = component (snd (_do_zoom w)).
Proof.
  destruct w as [[tr es en ols ohs ss se hist idx] me c win hd].
  destruct tr as [mode ao ax zin zout ew db step doc msd ptr].
  unfold well_formed. cbn. intros (Hidx & Hshape & Hlo & Hhi) ->.
  destruct hist as [| orig h]; [cbn in Hidx; lia |].
  unfold _reset_state_pressed, _reset_state_to_current, _reset_state,
    _do_zoom, _current_state, history_first,
    bind, gets, modify, ret, raise, lift, when.
  cbn.
  destruct mode, ols; try discriminate; destruct ohs; try discriminate;
    cbn; repeat split.
Qed.

End Reset.

Lemma reset_pressed_recaptures_witness :
  let w := update_self (fun t => set__history (_history t) 0 t) zoomed_twice_world in
  _history (self (snd (_reset_state_pressed w))) = [RangeState 32 40] /\
  _history_index (self (snd (_reset_state_pressed w))) = 0%nat.
Proof.
  intros w.
  destruct (reset_pressed_recaptures w) as (_ & Hi & Hh & _).
  - vm_compute. repeat split; try lia; repeat constructor.
  - reflexivity.
  - split; [| exact Hi]. rewrite Hh. vm_compute. reflexivity.
Defined.

(** ** Persistence *)

Section PersistenceFacts.

Variable Value : Type.

Lemma get_key_del_key (state : list (string * Value)) (k k' : string) :
  get_key (del_key state k) k' =
    if String.eqb k k' then None else get_key state k'.
Proof.
  unfold del_key.
  induction state as [| [k0 v] rest IH]; cbn.
  - destruct (String.eqb k k'); reflexivity.
  - destruct (String.eqb k0 k) eqn:E0; cbn.
    + apply String.eqb_eq in E0. subst k0. rewrite IH.
      destruct (String.eqb k k'); reflexivity.
    + rewrite IH. destruct (String.eqb k0 k') eqn:E1; [| reflexivity].
      apply String.eqb_eq in E1. subst k0.
      rewrite String.eqb_sym, E0. reflexivity.
Qed.

Lemma get_key_without (state : list (string * Value)) (k : string) :
  has_key state k = false -> get_key state k = None.
Proof.
  induction state as [| [k0 v] rest IH]; cbn; [reflexivity |].
  destruct (String.eqb k0 k); cbn; [discriminate | exact IH].
Qed.

Lemma get_key_drop (keys : list string) :
  forall (state : list (string * Value)) (k' : string),
    get_key
      (fold_left
         (fun st key => if has_key st key then del_key st key else st)
         keys state) k' =
    if existsb (fun k => String.eqb k k') keys then None else get_key state k'.
Proof.
  induction keys as [| k rest IH]; intros state k'; cbn; [reflexivity |].
  rewrite IH.
  destruct (existsb (fun k0 => String.eqb k0 k') rest);
    [rewrite orb_true_r; reflexivity |].
  rewrite orb_false_r.
  destruct (has_key state k) eqn:Eh.
  - apply get_key_del_key.
  - destruct (String.eqb k k') eqn:E; [| reflexivity].
    apply String.eqb_eq in E. subst k'. apply get_key_without. exact Eh.
Qed.

(** X17: the pickled state never holds one of the twelve transient
    names of [dont_pickle], whatever the state of the parent classes
    held, and every other name keeps the value it had there. *)
Theorem getstate_drops_transient (super_state : list (string * Value))
    (key : string) :
  (In key dont_pickle -> get_key (__getstate__ super_state) key = None) /\
  (~ In key dont_pickle ->
   get_key (__getstate__ super_state) key = get_key super_state key).
Proof.
  unfold __getstate__. rewrite get_key_drop.
  destruct (existsb (fun k => String.eqb k key) dont_pickle) eqn:E.
  - split; [reflexivity |]. intros Hn. exfalso. apply Hn.
    apply existsb_exists in E. destruct E as (k & Hin & Hk).
    apply String.eqb_eq in Hk. subst k. exact Hin.
  - split; [| reflexivity]. intros Hin. exfalso.
    assert (Ht : existsb (fun k => String.eqb k key) dont_pickle = true).
    { apply existsb_exists. exists key. split; [exact Hin |].
      apply String.eqb_refl. }
    congruence.
Qed.

End PersistenceFacts.

(** ** Drawing the selection *)

Section Drawing.

Context {Mapper : Type} {mapper_api : MapperAPI Mapper}.

Local Open Scope py_scope.

(** X18: the fill colour of the selection box, for a [color_] of three
    or four components. A nonzero [alpha] replaces (or supplies) the
    fourth component; an [alpha] of [None] or of zero, of either sign,
    is not applied: the colour is used as it is. *)
Theorem fill_color_uses_alpha (a : Appearance) (r g b a0 : float) :
  color_ a = [r; g; b] \/ color_ a = [r; g; b; a0] ->
  (forall v : float,
     alpha a = Some v -> py_eq v 0 = false -> fill_color a = [r; g; b; v]) /\
  (alpha a = None \/ alpha a = Some 0%float \/ alpha a = Some (-0)%float ->
   fill_color a = color_ a).
Proof.
  intros Hc. unfold fill_color, alpha_set. split.
  - intros v -> Hv. rewrite Hv. destruct Hc as [-> | ->]; reflexivity.
  - intros [-> | [-> | ->]]; reflexivity.
Qed.

(** X19: the band drawn in range mode. With both screen points known,
    [overlay_range] draws one rectangle: along the zoom axis it starts
    at the start point and has the signed width end - start; across it
    it starts at the component's position and spans the component's
    bounds. *)
Theorem overlay_range_band (a : Appearance) (bounds : Z * Z)
    (w : World Mapper) (start end_ : Z * Z) :
  _screen_start (self w) = Some start ->
  _screen_end (self w) = Some end_ ->
  let c := component w in
  overlay_range a bounds w =
    Ok [save_state;
        set_antialias 0;
        set_alpha (alpha a);
        set_fill_color (color_ a);
        set_stroke_color (border_color_ a);
        clip_to_rect (c_x c) (c_y c) (fst bounds) (snd bounds);
        match _determine_axis (self w) c with
        | O => rect (fst start) (c_y c) (fst end_ - fst start) (snd bounds)
        | _ => rect (c_x c) (snd start) (fst bounds) (snd end_ - snd start)
        end;
        draw_path;
        restore_state].
Proof.
  intros Hs He. unfold overlay_range. rewrite Hs, He. cbv zeta.
  assert (Hax : _determine_axis (self w) (component w) = 0%nat \/
                _determine_axis (self w) (component w) = 1%nat).
  { unfold _determine_axis.
    destruct (axis (traits (self w))), (orientation (component w)); auto. }
  destruct Hax as [-> | ->]; reflexivity.
Qed.

(** X20: whatever [overlay] draws, it leaves the graphics context as it
    found it: when it returns, the calls it made are none at all, or
    start with [save_state], end with [restore_state] and save or
    restore nowhere in between. In the normal state it draws nothing. *)
Theorem overlay_brackets_gc (a : Appearance) (bounds : Z * Z)
    (w : World Mapper) (calls : list GcCall) :
  overlay a bounds w = Ok calls ->
  (event_state (self w) = StateNormal -> calls = []) /\
  (calls = [] \/
   exists body,
     calls = save_state :: body ++ [restore_state] /\
     ~ In save_state body /\ ~ In restore_state body).
Proof.
  unfold overlay, overlay_box, overlay_range.
  destruct (event_state (self w)).
  - intros H. injection H as <-. split; [reflexivity | left; reflexivity].
  - intros H. split; [discriminate |].
    destruct (tool_mode (traits (self w)));
      destruct (_screen_start (self w)) as [start |];
      destruct (_screen_end (self w)) as [end_ |];
      try discriminate; try (injection H as <-; left; reflexivity).
    + injection H as <-. right.
      destruct (is_transparent (color a));
        match goal with
        | |- exists body, ?l = _ /\ _ => exists (removelast (tl l))
        end;
        cbn; (split; [reflexivity | intuition discriminate]).
    + cbv zeta in H. injection H as <-. right.
      match goal with
      | |- exists body, ?l = _ /\ _ => exists (removelast (tl l))
      end.
      cbn. split; [reflexivity | intuition discriminate].
Qed.

(** *** Selections can always be drawn *)

Lemma dispatch_selection_drawable (kind : MouseEventKind) (event : Event)
    (w : World Mapper) :
  between_events w ->
  selection_drawable w ->
  selection_drawable (snd (dispatch kind event w)).
Proof.
  intros [Hwf Hsel] Hdraw.
  unfold dispatch. unfold bind at 1, modify at 1. cbv beta iota.
  unfold bind at 1, gets at 1. cbv beta iota.
  cbn [self set_handled].
  assert (Hdraw0 : selection_drawable (set_handled false w)) by exact Hdraw.
  destruct (event_state (self w)) eqn:Hstate, kind; try exact Hdraw0.
  - unfold normal_left_down, bind, gets, ret. cbn [self set_handled].
    destruct (always_on (traits (self w)) || _enabled (self w));
      [| exact Hdraw0].
    destruct (drag_button (traits (self w))); [| exact Hdraw0].
    unfold selection_drawable, _start_select, selecting_mouse_move,
      bind, gets, modify, ret.
    cbn. destruct (none_or_tool _ _); cbn; eauto.
  - unfold normal_right_down, bind, gets, ret. cbn [self set_handled].
    destruct (always_on (traits (self w)) || _enabled (self w));
      [| exact Hdraw0].
    destruct (drag_button (traits (self w))); [exact Hdraw0 |].
    unfold selection_drawable, _start_select, selecting_mouse_move,
      bind, gets, modify, ret.
    cbn. destruct (none_or_tool _ _); cbn; eauto.
  - unfold selection_drawable.
    rewrite (normal_mouse_wheel_self event (set_handled false w)).
    exact Hdraw0.
  - destruct (Hsel eq_refl) as [start Hstart].
    destruct (_end_select_well_formed event (set_handled false w) start Hwf Hstart)
      as (_ & _ & Hn).
    unfold selecting_left_up, bind, gets, ret. cbn [self set_handled].
    destruct (drag_button (traits (self w))); [| exact Hdraw0].
    unfold selection_drawable. rewrite Hn. discriminate.
  - destruct (Hsel eq_refl) as [start Hstart].
    destruct (_end_select_well_formed event (set_handled false w) start Hwf Hstart)
      as (_ & _ & Hn).
    unfold selecting_right_up, bind, gets, ret. cbn [self set_handled].
    destruct (drag_button (traits (self w))); [exact Hdraw0 |].
    unfold selection_drawable. rewrite Hn. discriminate.
  - unfold selection_drawable, selecting_mouse_move, bind, gets, modify, ret.
    cbn. intros _. split; [apply Hsel; reflexivity | eauto].
  - destruct (_end_selecting_effect (Some event) (set_handled false w))
      as (_ & _ & Hn & _).
    unfold selection_drawable, selecting_mouse_leave. rewrite Hn. discriminate.
Qed.

Lemma run_events_selection_drawable (events : list (MouseEventKind * Event)) :
  forall w : World Mapper,
    between_events w ->
    selection_drawable w ->
    selection_drawable (snd (run_events events w)).
Proof.
  induction events as [| [kind event] rest IH]; intros w Hb Hd.
  - exact Hd.
  - cbn [run_events].
    destruct (dispatch_between_events kind event w Hb) as [Hb' _].
    pose proof (dispatch_selection_drawable kind event w Hb Hd) as Hd'.
    unfold bind.
    destruct (dispatch kind event w) as [[[] | e] w'];
      cbn [fst snd] in Hb', Hd'.
    + exact (IH w' Hb' Hd').
    + exact Hd'.
Qed.

(** X21: after construction and any sequence of mouse events, [overlay]
    returns normally: whenever the tool is in the selecting state both
    screen points are set (a press records the end point too), so the
    unguarded indexing of [overlay_range] finds them. *)
Theorem overlay_never_raises (cmp : Component Mapper) (kw : Traits)
    (me : ToolId) (win : Window) (events : list (MouseEventKind * Event))
    (a : Appearance) (bounds : Z * Z) :
  exists calls,
    overlay a bounds (snd (run_events events (__init__ cmp kw me win)))
      = Ok calls.
Proof.
  assert (Hb : between_events (__init__ cmp kw me win))
    by apply __init___between_events.
  assert (Hd : selection_drawable (__init__ cmp kw me win)).
  { unfold selection_drawable, __init__, _reset_state_to_current, _reset_state,
      bind, gets, modify, ret.
    cbn. destruct (tool_mode kw); cbn; discriminate. }
  pose proof (run_events_selection_drawable events _ Hb Hd) as H.
  set (w := snd (run_events events (__init__ cmp kw me win))) in *.
  unfold overlay, overlay_box, overlay_range.
  destruct (event_state (self w)) eqn:Es; [eauto |].
  destruct (H Es) as [[start ->] [end_ ->]].
  destruct (tool_mode (traits (self w))); eauto.
Qed.

End Drawing.

Lemma fill_color_uses_alpha_witness :
  fill_color (mkAppearance (ColorName "lightskyblue") [0.5; 0.8; 1; 1]%float
                (Some 0.4%float) [0; 0; 1; 1]%float 1)
  = [0.5; 0.8; 1; 0.4]%float.
Proof.
  refine (proj1 (fill_color_uses_alpha
            (mkAppearance (ColorName "lightskyblue") [0.5; 0.8; 1; 1]%float
               (Some 0.4%float) [0; 0; 1; 1]%float 1)
            0.5%float 0.8%float 1%float 1%float _) 0.4%float _ _);
    [right; reflexivity | reflexivity | reflexivity].
Defined.

Lemma overlay_range_band_witness :
  overlay_range
    (mkAppearance (ColorName "lightskyblue") [0.5; 0.8; 1; 1]%float
       (Some 0.4%float) [0; 0; 1; 1]%float 1)
    (101, 101)%Z range_dragging_world
  = Ok [save_state;
        set_antialias 0;
        set_alpha (Some 0.4%float);
        set_fill_color [0.5; 0.8; 1; 1]%float;
        set_stroke_color [0; 0; 1; 1]%float;
        clip_to_rect 0 0 101 101;
        rect 20 0 0 101;
        draw_path;
        restore_state].
Proof.
  apply (overlay_range_band
           (mkAppearance (ColorName "lightskyblue") [0.5; 0.8; 1; 1]%float
              (Some 0.4%float) [0; 0; 1; 1]%float 1)
           (101, 101)%Z range_dragging_world (20, 0)%Z (20, 0)%Z);
    reflexivity.
Defined.

Lemma overlay_brackets_gc_witness :
  exists body,
    [save_state; set_antialias 0; set_alpha None; set_fill_color [];
     set_stroke_color []; clip_to_rect 0 0 101 101; rect 20 0 0 101;
     draw_path; restore_state]
    = save_state :: body ++ [restore_state] /\
    ~ In save_state body /\ ~ In restore_state body.
Proof.
  destruct (overlay_brackets_gc
              (mkAppearance (ColorName "black") [] None [] 1)
              (101, 101)%Z range_dragging_world
              [save_state; set_antialias 0; set_alpha None; set_fill_color [];
               set_stroke_color []; clip_to_rect 0 0 101 101; rect 20 0 0 101;
               draw_path; restore_state] eq_refl) as [_ [H | H]].
  - discriminate H.
  - exact H.
Defined.

(** ** Handled wheel events, always-on tools and event sequences *)

Section Sequences.

Context {Mapper : Type} {mapper_api : MapperAPI Mapper}.
Context {Key KeySpec : Type}.

Variable key_match : KeySpec -> Key -> bool.
Variable _history_handle_key : Event -> Key -> M Mapper unit.

Local Open Scope py_scope.

Lemma wheel_loop_handled (zoom : float) (low_pt high_pt mouse_pos : float * float)
    (orig : ZoomState) (l : list (nat * MapperRef)) :
  forall w : World Mapper,
    handled (snd (wheel_loop zoom low_pt high_pt mouse_pos orig l w)) = true.
Proof.
  induction l as [| [ndx datarange] rest IH]; intros w.
  - reflexivity.
  - cbn [wheel_loop]. unfold bind at 1. rewrite limit_reached_world.
    destruct (_zoom_limit_reached _ _ _ _ _ _) as [[|] | e] eqn:E.
    + reflexivity.
    + unfold bind, assign_range, modify. apply IH.
    + destruct (_zoom_limit_reached_total
                  (max_zoom_in_factor (traits (self w)))
                  (max_zoom_out_factor (traits (self w)))
                  (fst (wheel_orig orig ndx)) (snd (wheel_orig orig ndx))
                  (wheel_newlow zoom (item mouse_pos ndx) (item low_pt ndx))
                  (wheel_newhigh zoom (item mouse_pos ndx) (item high_pt ndx)))
        as [b Hb].
      congruence.
Qed.

(** X6: a wheel event with the wheel enabled, a nonzero delta and a
    non-empty history, whose zoom factor exists (a zoom-out, or a
    zoom-in on a tool whose [1 + 0.5 * wheel_zoom_step] is not zero),
    is always consumed: the handler returns normally and marks the
    event handled, whether the zoom was applied to every axis, to the
    first axis only, or to none. On the remaining event, a zoom-in
    whose factor divides by zero, the handler raises
    [ZeroDivisionError] and the event is left as it came, not marked
    handled. *)
Theorem wheel_always_handled (event : Event) (w : World Mapper) :
  enable_wheel (traits (self w)) = true ->
  mouse_wheel event <> 0%Z ->
  _history (self w) <> [] ->
  let divides_by_zero :=
    (0 <? mouse_wheel event)%Z
    && py_eq (1 + 0.5 * wheel_zoom_step (traits (self w)))%float 0 in
  (divides_by_zero = false ->
   fst (normal_mouse_wheel event w) = Ok tt /\
   handled (snd (normal_mouse_wheel event w)) = true) /\
  (divides_by_zero = true ->
   fst (normal_mouse_wheel event w) = Raise ZeroDivisionError /\
   handled (snd (normal_mouse_wheel event w)) = handled w).
Proof.
  intros Hen Hwheel Hne divides_by_zero. subst divides_by_zero.
  rewrite normal_mouse_wheel_run.
  rewrite Hen. apply Z.eqb_neq in Hwheel. rewrite Hwheel. cbn [negb andb].
  unfold wheel_zoom, py_div.
  destruct (0 <? mouse_wheel event)%Z; cbn [andb].
  - destruct (py_eq (1.0 + 0.5 * wheel_zoom_step (traits (self w)))%float 0);
      (split; [intros Hz | intros Hz]); try discriminate.
    + split; reflexivity.
    + cbv zeta. destruct (_history (self w)) as [| orig h]; [congruence |].
      split; [apply wheel_loop_ok | apply wheel_loop_handled].
  - split; [intros _ | discriminate].
    cbv zeta. destruct (_history (self w)) as [| orig h]; [congruence |].
    split; [apply wheel_loop_ok | apply wheel_loop_handled].
Qed.

(** X22: on an always-on tool the enter and exit bindings have no
    effect: whatever the three key bindings are, a key pressed in the
    normal state goes to the history handler, followed by a redraw
    request when the handler marked the event handled. *)
Theorem always_on_ignores_zoom_keys (keys : KeyBindings KeySpec)
    (event : Event) (key : Key) (w : World Mapper) :
  always_on (traits (self w)) = true ->
  normal_key_pressed key_match _history_handle_key keys event key w =
    (_history_handle_key event key ;;
     h <- gets handled ;;
     when h request_redraw) w.
Proof.
  intros Hao. unfold normal_key_pressed.
  unfold bind at 1, gets at 1. cbv beta iota zeta. rewrite Hao. reflexivity.
Qed.

(** X23: from construction on, whatever mouse events arrive (presses,
    releases, moves, leaves and wheel turns of any coordinates, in any
    order), the history is never empty, its index stays inside it, and
    a tool in the selecting state has its start point. No handler
    raises on a tool whose [1 + 0.5 * wheel_zoom_step] is not zero; on
    any tool the one error a handler can raise is the
    [ZeroDivisionError] of the zoom-in factor. *)
Theorem mouse_events_keep_tool_sound (c : Component Mapper) (kw : Traits)
    (me : ToolId) (win : Window) (events : list (MouseEventKind * Event)) :
  let r := fst (run_events events (__init__ c kw me win)) in
  let w := snd (run_events events (__init__ c kw me win)) in
  (py_eq (1 + 0.5 * wheel_zoom_step kw)%float 0 = false -> r = Ok tt) /\
  (r = Ok tt \/ r = Raise ZeroDivisionError) /\
  _history (self w) <> [] /\
  _history_index (self w) < List.length (_history (self w)) /\
  (event_state (self w) = StateSelecting -> _screen_start (self w) <> None).
Proof.
  destruct (__init___between_events c kw me win) as [H0 Ht].
  destruct (run_events_between_events events _ H0) as [((Hidx & _) & Hsel) Hr].
  unfold returned_or_zero_division in Hr. rewrite Ht in Hr.
  cbv zeta. repeat split.
  - intros Hz. destruct Hr as [Hok | [_ Hr]]; [exact Hok | congruence].
  - destruct Hr as [Hok | [Hr _]]; [left | right]; assumption.
  - intros E. rewrite E in Hidx. cbn in Hidx. lia.
  - exact Hidx.
  - intros Hs. destruct (Hsel Hs) as [start ->]. discriminate.
Qed.

End Sequences.

Lemma wheel_always_handled_witness :
  (fst (normal_mouse_wheel (mkEvent 50 50 1) (example_world range_traits None))
     = Ok tt /\
   handled (snd (normal_mouse_wheel (mkEvent 50 50 1)
                   (example_world range_traits None))) = true) /\
  (fst (normal_mouse_wheel (mkEvent 50 50 1)
          (example_world zero_factor_traits None))
     = Raise ZeroDivisionError /\
   handled (snd (normal_mouse_wheel (mkEvent 50 50 1)
                   (example_world zero_factor_traits None))) = false).
Proof.
  split.
  - apply (wheel_always_handled (mkEvent 50 50 1)
             (example_world range_traits None));
      [reflexivity | discriminate | vm_compute; discriminate | reflexivity].
  - apply (wheel_always_handled (mkEvent 50 50 1)
             (example_world zero_factor_traits None));
      [reflexivity | discriminate | vm_compute; discriminate | reflexivity].
Defined.

Lemma always_on_ignores_zoom_keys_witness :
  normal_key_pressed String.eqb (fun _ _ => ret tt) default_keys
    (mkEvent 0 0 0) "z"%string (example_world always_on_traits None) =
  (Ok tt, example_world always_on_traits None).
Proof.
  rewrite (always_on_ignores_zoom_keys String.eqb (fun _ _ => ret tt)
             default_keys (mkEvent 0 0 0) "z"%string
             (example_world always_on_traits None));
    reflexivity.
Defined.
